(** * app.py: the OpenDota proxy (live and recent Dota 2 matches)

    A shallow embedding of [src/app.py]: the in-memory cache, the two
    normalizers and the two request handlers, followed by the properties
    of the specification that were checked against them.

    Conventions of the embedding.
    - A Python [str] is a Rocq [string] holding its UTF-8 bytes.
    - The values produced by [r.json()] are [pyval]s; JSON numbers are
      Python ints ([Z]).  Numbers with a fraction or an exponent (Python
      floats) are outside the embedding.
    - [time.time()] is an exact rational number of seconds ([Q]); the
      rounding of Python's floats is not modelled.  [cache_set] stores
      the exact sum where the source stores the rounded one, so what is
      said of the instant of expiry is said of the stored [exp].
    - The module-level dict [_cache] is passed explicitly, the clock
      readings and the upstream service are inputs of the handlers.
    - The outcome [JSONResponse] stands for the handler reaching its
      [return].  The rendering of the body, which raises on a NaN and on
      a string with a lone surrogate (values outside the embedding), is
      not modelled. *)

From Stdlib Require Import ZArith QArith Lqa String Ascii List.
From stdpp Require Import base gmap strings list pretty.

Local Open Scope string_scope.
Set Warnings "-register-all".

(** ** Python values and exceptions *)

Inductive pyval : Type :=
| VNone
| VBool (b : bool)
| VInt (z : Z)
| VStr (s : string)
| VList (l : list pyval)
| VDict (kvs : list (string * pyval)).

(** The exceptions that can escape the handlers (each one ends the
    request with a server error), apart from [HTTPException]. *)
Inductive pyexn : Type :=
| TypeError
| AttributeError
| JSONDecodeError
| TransportError.

Inductive pyres (A : Type) : Type :=
| Ok (a : A)
| Raise (e : pyexn).
Arguments Ok {A} a.
Arguments Raise {A} e.

#[global] Instance pyres_ret : MRet pyres := fun A a => Ok a.
#[global] Instance pyres_bind : MBind pyres := fun A B f m =>
  match m with
  | Ok a => f a
  | Raise e => Raise e
  end.
#[global] Instance pyres_fmap : FMap pyres := fun A B f m =>
  match m with
  | Ok a => Ok (f a)
  | Raise e => Raise e
  end.

(** [bool(v)] *)
Definition truthy (v : pyval) : bool :=
  match v with
  | VNone => false
  | VBool b => b
  | VInt z => negb (z =? 0)%Z
  | VStr s => negb (String.eqb s "")
  | VList l => match l with [] => false | _ => true end
  | VDict kvs => match kvs with [] => false | _ => true end
  end.

(** [a or b] *)
Definition py_or (a b : pyval) : pyval := if truthy a then a else b.

(** A dict is the list of its items in insertion order (keys distinct). *)
Fixpoint dict_get {V : Type} (kvs : list (string * V)) (k : string) : option V :=
  match kvs with
  | [] => None
  | (k', v) :: rest => if String.eqb k' k then Some v else dict_get rest k
  end.

(** [d[k] = v]: an existing key keeps its place, a new one goes last. *)
Fixpoint dict_set {V : Type} (kvs : list (string * V)) (k : string) (v : V)
  : list (string * V) :=
  match kvs with
  | [] => [(k, v)]
  | (k', v') :: rest =>
      if String.eqb k' k then (k', v) :: rest else (k', v') :: dict_set rest k v
  end.

(** [m.get(k, default)]; only a dict has the method. *)
Definition py_get (m : pyval) (k : string) (default : pyval) : pyres pyval :=
  match m with
  | VDict kvs => Ok (from_option (fun v => v) default (dict_get kvs k))
  | _ => Raise AttributeError
  end.

(** Number of code points of a UTF-8 string: the bytes that are not
    continuation bytes [10xxxxxx]. *)
Definition continuation_byte (c : ascii) : bool :=
  let n := N_of_ascii c in ((128 <=? n) && (n <? 192))%N.

Fixpoint str_len (s : string) : nat :=
  match s with
  | EmptyString => 0
  | String c s' => (if continuation_byte c then 0 else 1) + str_len s'
  end.

(** [len(v)] *)
Definition py_len (v : pyval) : pyres nat :=
  match v with
  | VList l => Ok (length l)
  | VDict kvs => Ok (length kvs)
  | VStr s => Ok (str_len s)
  | _ => Raise TypeError
  end.

(** [max(v, 0)] as an integer: [bool] is a subclass of [int]; comparing
    [0] with any other kind of [pyval] raises (a float, which [max]
    accepts, is not a [pyval]). *)
Definition py_max_0 (v : pyval) : pyres Z :=
  match v with
  | VInt z => Ok (Z.max z 0)
  | VBool b => Ok (Z.max (Z.b2z b) 0)
  | _ => Raise TypeError
  end.

(** ** The constants of the module *)

Definition OPENDOTA_LIVE : string := "https://api.opendota.com/api/live".
Definition OPENDOTA_PRO : string := "https://api.opendota.com/api/proMatches".
Definition CACHE_SECONDS : Z := 10.

(** The separator as the source file has it, byte for byte: the three
    code points U+00E2 U+20AC U+00A2. *)
Definition live_separator : string := "â€¢".

(** The bullet U+2022. *)
Definition bullet : string := "•".

(** ** The in-memory cache *)

Record entry (A : Type) : Type := { data : A; exp : Q }.
Arguments data {A} e.
Arguments exp {A} e.

Definition cache_get {A : Type} (_cache : gmap string (entry A)) (k : string)
    (now : Q) : option A :=
  match _cache !! k with
  | None => None
  | Some v => if Qlt_le_dec (exp v) now then None else Some (data v)
  end.

Definition cache_set {A : Type} (_cache : gmap string (entry A)) (k : string)
    (d : A) (ttl : Z) (now : Q) : gmap string (entry A) :=
  <[k := {| data := d; exp := (now + inject_Z ttl)%Q |}]> _cache.

(** ** Items and payloads *)

Record item : Type := {
  item_id : pyval;
  game : string;
  league : pyval;
  series : string;
  team1 : pyval;
  team2 : pyval;
  status : string;
  score : string;
  begin_at : pyval;
  raw : pyval
}.

Record payload : Type := { count : nat; items : list item }.

(** The [for] loop of both normalizers: the body runs on each row in
    turn and its result is appended; an exception ends the loop. *)
Fixpoint for_rows (body : pyval -> pyres item) (rows : list pyval)
    (acc : list item) : pyres (list item) :=
  match rows with
  | [] => Ok acc
  | m :: rest => it ← body m; for_rows body rest (acc ++ [it])
  end.

(** ** Query strings: [urllib.parse.quote_plus] and [urlencode] *)

Definition always_safe (c : ascii) : bool :=
  let n := N_of_ascii c in
  (((65 <=? n) && (n <=? 90)) || ((97 <=? n) && (n <=? 122))
   || ((48 <=? n) && (n <=? 57))
   || (n =? 95) || (n =? 46) || (n =? 45) || (n =? 126))%N.

Definition hex_digit (n : N) : ascii :=
  ascii_of_N (if (n <? 10)%N then 48 + n else 55 + n)%N.

Definition percent_byte (c : ascii) : string :=
  let n := N_of_ascii c in
  String "%" (String (hex_digit (n / 16)) (String (hex_digit (n mod 16)) "")).

Fixpoint quote_plus (s : string) : string :=
  match s with
  | EmptyString => ""
  | String c s' =>
      (if always_safe c then String c ""
       else if Ascii.eqb c " " then "+"
       else percent_byte c) +:+ quote_plus s'
  end.

Fixpoint join (sep : string) (l : list string) : string :=
  match l with
  | [] => ""
  | [x] => x
  | x :: rest => x +:+ sep +:+ join sep rest
  end.

(** [dict(request.query_params)]: a repeated key keeps the place of its
    first occurrence and the value of its last one. *)
Definition dict_of_items (query_params : list (string * string))
  : list (string * string) :=
  fold_left (fun d kv => dict_set d kv.1 kv.2) query_params [].

(** [urlencode(params, doseq=True)] on a dict of strings. *)
Definition urlencode (params : list (string * string)) : string :=
  join "&" (map (fun kv => quote_plus kv.1 +:+ "=" +:+ quote_plus kv.2) params).

(** The URL of the live request, which is also its cache key. *)
Definition live_url (query_params : list (string * string)) : string :=
  let params := dict_of_items query_params in
  let qs := urlencode params in
  OPENDOTA_LIVE +:+ (if String.eqb qs "" then "" else "?" +:+ qs).

(** ** Responses *)

(** What the upstream service answers to [client.get(url)]: a transport
    failure (the call raises), or a reply with a status code and a body.
    [json_body] is [None] when the body is not valid JSON, in which case
    [r.json()] raises. *)
Record reply : Type := { status_code : Z; json_body : option pyval }.

Inductive upstream_result : Type :=
| Failed
| Replied (r : reply).

(** How a request ends: a [JSONResponse] (status 200) carrying
    [fromCache] and the payload, an [HTTPException], or an exception
    nobody catches. *)
Inductive outcome : Type :=
| JSONResponse (fromCache : bool) (p : payload)
| HTTPException (code : Z) (detail : string)
| Unhandled (e : pyexn).

(** [repr] of a string without anything to escape, used to run the
    model on concrete inputs. *)
Definition quoted (s : string) : string := "'" +:+ s +:+ "'".

(** The value under [k] is missing or falsy: [m.get(k) or d] is [d]. *)
Definition absent_or_falsy (kvs : list (string * pyval)) (k : string) : Prop :=
  dict_get kvs k = None \/ exists v, dict_get kvs k = Some v /\ truthy v = false.

(** [needle in hay] *)
Definition contains (hay needle : string) : Prop :=
  exists pre post, hay = pre +:+ needle +:+ post.

(** [isinstance(v, dict)] *)
Definition is_dict (v : pyval) : bool :=
  match v with VDict _ => true | _ => false end.

(** [isinstance(v, int)], which holds of the booleans too. *)
Definition is_int (v : pyval) : bool :=
  match v with VInt _ | VBool _ => true | _ => false end.

(** The characters of a query string: the ones [quote_plus] never
    escapes, the ones it escapes with, and the two separators. *)
Definition quoted_char (c : ascii) : bool :=
  always_safe c || Ascii.eqb c "+" || Ascii.eqb c "%".

Definition query_char (c : ascii) : bool :=
  quoted_char c || Ascii.eqb c "=" || Ascii.eqb c "&".

Fixpoint all_chars (P : ascii -> bool) (s : string) : bool :=
  match s with
  | EmptyString => true
  | String c s' => P c && all_chars P s'
  end.

(** Reading back the first byte of what [quote_plus] wrote, to tell
    two encodings apart. *)
Definition hex_value (c : ascii) : option N :=
  let n := N_of_ascii c in
  if ((48 <=? n) && (n <=? 57))%N then Some (n - 48)%N
  else if ((65 <=? n) && (n <=? 70))%N then Some (n - 55)%N
  else None.

Definition unquote_head (s : string) : option (ascii * string) :=
  match s with
  | EmptyString => None
  | String c rest =>
      if always_safe c then Some (c, rest)
      else if Ascii.eqb c "+" then Some (" "%char, rest)
      else if Ascii.eqb c "%" then
        match rest with
        | String h (String l rest') =>
            match hex_value h, hex_value l with
            | Some a, Some b => Some (ascii_of_N (16 * a + b), rest')
            | _, _ => None
            end
        | _ => None
        end
      else None
  end.

Section App.

(** Python's [repr] of a [str] (choice of quotes, escapes, printable
    code points) is left abstract: it is only reached when a score field
    holds a list or a dict. *)
Variable str_repr : string -> string.

(** [repr(v)] *)
Fixpoint py_repr (v : pyval) : string :=
  match v with
  | VNone => "None"
  | VBool b => if b then "True" else "False"
  | VInt z => pretty z
  | VStr s => str_repr s
  | VList l => "[" +:+ join ", " (map py_repr l) +:+ "]"
  | VDict kvs =>
      "{" +:+ join ", " (map (fun kv => match kv with
                                        | (k, x) => str_repr k +:+ ": " +:+ py_repr x
                                        end) kvs) +:+ "}"
  end.

(** [format(v, '')], what an f-string does with [{v}]. *)
Definition py_str (v : pyval) : string :=
  match v with
  | VStr s => s
  | _ => py_repr v
  end.

(** ** The normalizers *)

(** The body of the loop of [normalize_live]. *)
Definition normalize_live_row (m : pyval) : pyres item :=
  league_name ← py_get m "league_name" VNone;
  let league := py_or league_name (VStr "") in
  team_name_radiant ← py_get m "team_name_radiant" VNone;
  let team1 := py_or team_name_radiant (VStr "Radiant") in
  team_name_dire ← py_get m "team_name_dire" VNone;
  let team2 := py_or team_name_dire (VStr "Dire") in
  radiant_score ← py_get m "radiant_score" (VInt 0);
  dire_score ← py_get m "dire_score" (VInt 0);
  let score := py_str radiant_score +:+ " - " +:+ py_str dire_score in
  game_time ← py_get m "game_time" (VInt 0);
  status ← (if truthy game_time
            then minutes ← py_max_0 game_time;
                 Ok ("Live " +:+ live_separator +:+ " "
                     +:+ pretty (minutes / 60)%Z +:+ "m")
            else Ok "Live");
  match_id ← py_get m "match_id" VNone;
  Ok {| item_id := match_id;
        game := "Dota 2";
        league := league;
        series := "";
        team1 := team1;
        team2 := team2;
        status := status;
        score := score;
        begin_at := VNone;
        raw := m |}.

Definition normalize_live (rows : pyval) : pyres (list item) :=
  match rows with
  | VList l => for_rows normalize_live_row l []
  | _ => Ok []
  end.

(** The body of the loop of [normalize_pro]. *)
Definition normalize_pro_row (m : pyval) : pyres item :=
  radiant_name ← py_get m "radiant_name" VNone;
  let team1 := py_or radiant_name (VStr "Radiant") in
  dire_name ← py_get m "dire_name" VNone;
  let team2 := py_or dire_name (VStr "Dire") in
  radiant_score ← py_get m "radiant_score" (VInt 0);
  dire_score ← py_get m "dire_score" (VInt 0);
  let score := py_str radiant_score +:+ " - " +:+ py_str dire_score in
  match_id ← py_get m "match_id" VNone;
  league_name ← py_get m "league_name" VNone;
  Ok {| item_id := match_id;
        game := "Dota 2";
        league := py_or league_name (VStr "");
        series := "";
        team1 := team1;
        team2 := team2;
        status := "Finished";
        score := score;
        begin_at := VNone;
        raw := m |}.

Definition normalize_pro (rows : pyval) : pyres (list item) :=
  match rows with
  | VList l => for_rows normalize_pro_row (take 20 l) []
  | _ => Ok []
  end.

(** ** The handlers

    [t_get] is the clock when the cache is read, [t_set] the clock when
    it is written, after the upstream call.  A cached payload is a dict
    with two keys, so [if cached:] holds whenever [cache_get] returns
    one.  The first component of the result is [_cache] after the
    request. *)

Definition dota_live (upstream : string -> upstream_result) (t_get t_set : Q)
    (query_params : list (string * string))
    (_cache : gmap string (entry payload))
  : gmap string (entry payload) * outcome :=
  let params := dict_of_items query_params in
  let qs := urlencode params in
  let url := OPENDOTA_LIVE +:+ (if String.eqb qs "" then "" else "?" +:+ qs) in
  match cache_get _cache url t_get with
  | Some cached => (_cache, JSONResponse true cached)
  | None =>
      match upstream url with
      | Failed => (_cache, Unhandled TransportError)
      | Replied r =>
          if negb (status_code r =? 200)%Z
          then (_cache,
                HTTPException 502
                  ("OpenDota upstream error " +:+ pretty (status_code r)))
          else
            match json_body r with
            | None => (_cache, Unhandled JSONDecodeError)
            | Some rows =>
                match (n ← py_len rows; its ← normalize_live rows;
                       Ok {| count := n; items := its |}) with
                | Raise e => (_cache, Unhandled e)
                | Ok p => (cache_set _cache url p CACHE_SECONDS t_set,
                           JSONResponse false p)
                end
            end
      end
  end.

Definition dota_recent (upstream : string -> upstream_result) (t_get t_set : Q)
    (_cache : gmap string (entry payload))
  : gmap string (entry payload) * outcome :=
  match cache_get _cache OPENDOTA_PRO t_get with
  | Some cached => (_cache, JSONResponse true cached)
  | None =>
      match upstream OPENDOTA_PRO with
      | Failed => (_cache, Unhandled TransportError)
      | Replied r =>
          if negb (status_code r =? 200)%Z
          then (_cache,
                HTTPException 502
                  ("OpenDota upstream error " +:+ pretty (status_code r)))
          else
            match json_body r with
            | None => (_cache, Unhandled JSONDecodeError)
            | Some rows =>
                match (n ← py_len rows; its ← normalize_pro rows;
                       Ok {| count := n; items := its |}) with
                | Raise e => (_cache, Unhandled e)
                | Ok p => (cache_set _cache OPENDOTA_PRO p 30 t_set,
                           JSONResponse false p)
                end
            end
      end
  end.

(** The lines that the two handlers have in common after a cache miss,
    with the normalizer, the ttl and the URL that tell them apart; the
    lemmas on the handlers are proved once, on this. *)
Definition after_miss (normalize : pyval -> pyres (list item)) (ttl : Z)
    (upstream : string -> upstream_result) (url : string) (t_set : Q)
    (_cache : gmap string (entry payload))
  : gmap string (entry payload) * outcome :=
  match upstream url with
  | Failed => (_cache, Unhandled TransportError)
  | Replied r =>
      if negb (status_code r =? 200)%Z
      then (_cache,
            HTTPException 502 ("OpenDota upstream error " +:+ pretty (status_code r)))
      else
        match json_body r with
        | None => (_cache, Unhandled JSONDecodeError)
        | Some rows =>
            match (n ← py_len rows; its ← normalize rows;
                   Ok {| count := n; items := its |}) with
            | Raise e => (_cache, Unhandled e)
            | Ok p => (cache_set _cache url p ttl t_set, JSONResponse false p)
            end
        end
  end.

(** * Properties *)

(** ** The cache *)

Lemma cache_set_lookup {A : Type} (c : gmap string (entry A)) k (v : A) T t0 :
  cache_set c k v T t0 !! k = Some {| data := v; exp := (t0 + inject_Z T)%Q |}.
Proof. unfold cache_set. apply lookup_insert_eq. Qed.

Lemma cache_set_lookup_other {A : Type} (c : gmap string (entry A)) k k' (v : A) T t0 :
  k <> k' -> cache_set c k v T t0 !! k' = c !! k'.
Proof. intros Hne. unfold cache_set. by apply lookup_insert_ne. Qed.

Lemma cache_get_fresh {A : Type} (c : gmap string (entry A)) k (v : A) T t0 t :
  (t <= t0 + inject_Z T)%Q -> cache_get (cache_set c k v T t0) k t = Some v.
Proof.
  intros Hle. unfold cache_get. rewrite cache_set_lookup. simpl.
  destruct (Qlt_le_dec (t0 + inject_Z T) t) as [Hlt | _]; [lra | reflexivity].
Qed.

Lemma cache_get_expired {A : Type} (c : gmap string (entry A)) k (v : A) T t0 t :
  (t0 + inject_Z T < t)%Q -> cache_get (cache_set c k v T t0) k t = None.
Proof.
  intros Hlt. unfold cache_get. rewrite cache_set_lookup. simpl.
  destruct (Qlt_le_dec (t0 + inject_Z T) t) as [_ | Hle]; [reflexivity | lra].
Qed.

(** A value that [cache_get] returns is stored under the key and its
    expiration time has not passed. *)
Lemma cache_get_Some {A : Type} (c : gmap string (entry A)) k t (v : A) :
  cache_get c k t = Some v ->
  exists e, c !! k = Some e /\ data e = v /\ (t <= exp e)%Q.
Proof.
  unfold cache_get. destruct (c !! k) as [e |]; [| discriminate].
  destruct (Qlt_le_dec (exp e) t) as [| Hle]; [discriminate |].
  intros [= <-]. by exists e.
Qed.


(** C8: whatever was stored under [k] before, [cache_set(k, v, T)]
    replaces the whole entry, and an unexpired [cache_get(k)] returns
    exactly [v]. *)
Theorem cache_set_get_ignores_history {A : Type} (c : gmap string (entry A)) k
    (v : A) T t0 t :
  (t - t0 < inject_Z T)%Q ->
  cache_get (cache_set c k v T t0) k t = Some v /\
  cache_set c k v T t0 !! k = Some {| data := v; exp := (t0 + inject_Z T)%Q |} /\
  cache_set c k v T t0 = cache_set (delete k c) k v T t0.
Proof.
  intros Hlt. split; [| split].
  - apply cache_get_fresh. lra.
  - apply cache_set_lookup.
  - unfold cache_set. by rewrite insert_delete_eq.
Qed.

(** ** The normalizers *)

Lemma for_rows_total (body : pyval -> pyres item) rows acc :
  Forall (fun m => exists it, body m = Ok it) rows ->
  exists new, for_rows body rows acc = Ok (acc ++ new)%list /\
              Forall2 (fun m it => body m = Ok it) rows new.
Proof.
  intros Hall. revert acc.
  induction Hall as [| m rest [it Hit] _ IH]; intros acc; simpl.
  - exists []. by rewrite app_nil_r.
  - rewrite Hit. simpl. destruct (IH (acc ++ [it])%list) as (new & Hrun & Hnew).
    exists (it :: new). split.
    + by rewrite Hrun, <- app_assoc.
    + by constructor.
Qed.

Lemma for_rows_inv (body : pyval -> pyres item) rows acc its :
  for_rows body rows acc = Ok its ->
  exists new, its = (acc ++ new)%list /\ Forall2 (fun m it => body m = Ok it) rows new.
Proof.
  revert acc. induction rows as [| m rest IH]; intros acc; simpl.
  - intros [= <-]. exists []. by rewrite app_nil_r.
  - destruct (body m) as [it | e] eqn:Hit; simpl; [| discriminate].
    intros Hrun. destruct (IH _ Hrun) as (new & -> & Hnew).
    exists (it :: new). split.
    + by rewrite <- app_assoc.
    + by constructor.
Qed.

(** On a dict, the body of [normalize_pro] never raises. *)
Lemma normalize_pro_row_dict kvs :
  exists it, normalize_pro_row (VDict kvs) = Ok it.
Proof. eexists. reflexivity. Qed.

Lemma normalize_pro_row_status m it :
  normalize_pro_row m = Ok it -> status it = "Finished".
Proof.
  destruct m; try discriminate. intros [= <-]. reflexivity.
Qed.

(** What is not a list normalizes to no item at all. *)
Lemma normalize_not_a_list rows :
  (forall l, rows <> VList l) ->
  normalize_live rows = Ok [] /\ normalize_pro rows = Ok [].
Proof. intros Hnl. destruct rows; try done. by destruct (Hnl l). Qed.

Lemma normalize_live_length l its :
  normalize_live (VList l) = Ok its -> length its = length l.
Proof.
  simpl. intros Hrun. destruct (for_rows_inv _ _ _ _ Hrun) as (new & -> & Hnew).
  simpl. symmetry. by eapply Forall2_length.
Qed.

Lemma normalize_pro_length l its :
  normalize_pro (VList l) = Ok its -> length its = Nat.min 20 (length l).
Proof.
  unfold normalize_pro. intros Hrun.
  destruct (for_rows_inv _ _ _ _ Hrun) as (new & -> & Hnew).
  rewrite app_nil_l, <- (Forall2_length _ _ _ Hnew). apply length_take.
Qed.

(** C6: given 25 records, [normalize_pro] returns exactly 20 items, the
    normalizations of the first 20 records in their order, each with
    the status "Finished". *)
Theorem normalize_pro_caps_at_20 (recs : list (list (string * pyval))) :
  length recs = 25 ->
  exists its,
    normalize_pro (VList (VDict <$> recs)) = Ok its /\
    length its = 20 /\
    Forall2 (fun r it => normalize_pro_row (VDict r) = Ok it) (take 20 recs) its /\
    Forall (fun it => status it = "Finished") its.
Proof.
  intros Hlen. unfold normalize_pro.
  destruct (for_rows_total normalize_pro_row (take 20 (VDict <$> recs)) [])
    as (its & Hrun & Hits).
  { rewrite <- fmap_take. apply Forall_fmap, Forall_forall.
    intros r _. apply normalize_pro_row_dict. }
  exists its. simpl in Hrun. split; [exact Hrun |].
  rewrite <- fmap_take in Hits. apply Forall2_fmap_l in Hits.
  split; [| split].
  - rewrite <- (Forall2_length _ _ _ Hits), length_take. lia.
  - exact Hits.
  - apply Forall_forall. intros it Hin.
    destruct (proj1 (list_elem_of_lookup _ _) Hin) as [i Hi].
    destruct (Forall2_lookup_r _ _ _ _ _ Hits Hi) as (r & _ & Hr).
    by eapply normalize_pro_row_status.
Qed.

(** The fields of an item that [normalize_live] builds from a dict. *)
Lemma normalize_live_row_fields kvs it :
  normalize_live_row (VDict kvs) = Ok it ->
  let get k d := from_option (fun v => v) d (dict_get kvs k) in
  league it = py_or (get "league_name" VNone) (VStr "") /\
  team1 it = py_or (get "team_name_radiant" VNone) (VStr "Radiant") /\
  team2 it = py_or (get "team_name_dire" VNone) (VStr "Dire") /\
  score it = py_str (get "radiant_score" (VInt 0)) +:+ " - "
               +:+ py_str (get "dire_score" (VInt 0)).
Proof.
  unfold normalize_live_row. simpl.
  destruct (truthy _); simpl; [destruct (py_max_0 _); simpl |];
    intros Hit; by inversion Hit.
Qed.

Lemma normalize_pro_row_fields kvs it :
  normalize_pro_row (VDict kvs) = Ok it ->
  let get k d := from_option (fun v => v) d (dict_get kvs k) in
  league it = py_or (get "league_name" VNone) (VStr "") /\
  team1 it = py_or (get "radiant_name" VNone) (VStr "Radiant") /\
  team2 it = py_or (get "dire_name" VNone) (VStr "Dire") /\
  score it = py_str (get "radiant_score" (VInt 0)) +:+ " - "
               +:+ py_str (get "dire_score" (VInt 0)).
Proof. intros Hit. by inversion Hit. Qed.

Lemma py_or_fallback kvs k d :
  absent_or_falsy kvs k ->
  py_or (from_option (fun v => v) VNone (dict_get kvs k)) d = d.
Proof.
  intros [-> | (v & -> & Hv)]; unfold py_or; simpl; [reflexivity |].
  by rewrite Hv.
Qed.

(** The score of an item made from a dict. *)
Lemma score_of_row kvs it :
  normalize_live_row (VDict kvs) = Ok it \/ normalize_pro_row (VDict kvs) = Ok it ->
  exists radiant dire,
    score it = radiant +:+ " - " +:+ dire /\
    (dict_get kvs "radiant_score" = None -> radiant = "0") /\
    (dict_get kvs "radiant_score" = Some VNone -> radiant = "None") /\
    (dict_get kvs "dire_score" = None -> dire = "0") /\
    (dict_get kvs "dire_score" = Some VNone -> dire = "None").
Proof.
  intros Hit.
  exists (py_str (from_option (fun v => v) (VInt 0) (dict_get kvs "radiant_score"))),
         (py_str (from_option (fun v => v) (VInt 0) (dict_get kvs "dire_score"))).
  split.
  - destruct Hit as [Hit | Hit].
    + apply (normalize_live_row_fields _ _ Hit).
    + apply (normalize_pro_row_fields _ _ Hit).
  - repeat split; intros ->; reflexivity.
Qed.

(** On a dict whose game time is falsy or an int, the body of
    [normalize_live] makes an item. *)
Lemma normalize_live_row_dict kvs :
  let game_time := from_option (fun v => v) (VInt 0) (dict_get kvs "game_time") in
  truthy game_time = false \/ is_int game_time = true ->
  exists it, normalize_live_row (VDict kvs) = Ok it.
Proof.
  intros game_time. unfold normalize_live_row. simpl. fold game_time.
  intros [Hf | Hi].
  - rewrite Hf. simpl. by eexists.
  - destruct (truthy game_time); simpl; [| by eexists].
    destruct game_time; try discriminate; simpl; by eexists.
Qed.

(** [normalize_pro] on a list of dicts: one item for each of the first
    20, made by the body of the loop. *)
Lemma normalize_pro_records (recs : list (list (string * pyval))) :
  exists its,
    normalize_pro (VList (VDict <$> recs)) = Ok its /\
    Forall2 (fun kvs it => normalize_pro_row (VDict kvs) = Ok it) (take 20 recs) its.
Proof.
  unfold normalize_pro.
  destruct (for_rows_total normalize_pro_row (take 20 (VDict <$> recs)) [])
    as (its & Hrun & Hits).
  { rewrite <- fmap_take. apply Forall_fmap, Forall_forall.
    intros r _. apply normalize_pro_row_dict. }
  exists its. split; [exact Hrun |].
  rewrite <- fmap_take in Hits. by apply Forall2_fmap_l in Hits.
Qed.

(** [normalize_live] on a list of dicts: when it returns, one item for
    each, made by the body of the loop; and it returns when every game
    time is falsy or an int. *)
Lemma normalize_live_records_inv (recs : list (list (string * pyval))) its :
  normalize_live (VList (VDict <$> recs)) = Ok its ->
  Forall2 (fun kvs it => normalize_live_row (VDict kvs) = Ok it) recs its.
Proof.
  unfold normalize_live. intros Hrun.
  apply for_rows_inv in Hrun as (new & -> & Hnew).
  rewrite app_nil_l. by apply Forall2_fmap_l in Hnew.
Qed.

Lemma normalize_live_records (recs : list (list (string * pyval))) :
  Forall (fun kvs =>
            let game_time :=
              from_option (fun v => v) (VInt 0) (dict_get kvs "game_time") in
            truthy game_time = false \/ is_int game_time = true) recs ->
  exists its, normalize_live (VList (VDict <$> recs)) = Ok its.
Proof.
  intros Hok. unfold normalize_live.
  destruct (for_rows_total normalize_live_row (VDict <$> recs) [])
    as (its & Hrun & _); [| by exists its].
  apply Forall_fmap. eapply Forall_impl; [exact Hok |].
  intros kvs Hkvs. by apply normalize_live_row_dict.
Qed.

(** C9: in both normalizers the default 0 of a score is used only when
    the key is absent; a key present with the value [None] is rendered
    as the text "None".  [normalize_pro] returns such an item for each of
    the first 20 records, [normalize_live] for every record, whenever it
    returns, which it does when every game time is falsy or an int. *)
Theorem score_default_only_when_absent (recs : list (list (string * pyval))) :
  let rendered kvs it :=
    exists radiant dire,
      score it = radiant +:+ " - " +:+ dire /\
      (dict_get kvs "radiant_score" = None -> radiant = "0") /\
      (dict_get kvs "radiant_score" = Some VNone -> radiant = "None") /\
      (dict_get kvs "dire_score" = None -> dire = "0") /\
      (dict_get kvs "dire_score" = Some VNone -> dire = "None") in
  (exists its,
     normalize_pro (VList (VDict <$> recs)) = Ok its /\
     Forall2 rendered (take 20 recs) its) /\
  (forall its,
     normalize_live (VList (VDict <$> recs)) = Ok its ->
     Forall2 rendered recs its) /\
  (Forall (fun kvs =>
             let game_time :=
               from_option (fun v => v) (VInt 0) (dict_get kvs "game_time") in
             truthy game_time = false \/ is_int game_time = true) recs ->
   exists its,
     normalize_live (VList (VDict <$> recs)) = Ok its /\
     Forall2 rendered recs its).
Proof.
  intros rendered.
  assert (Hlive : forall its,
             normalize_live (VList (VDict <$> recs)) = Ok its ->
             Forall2 rendered recs its).
  { intros its Hrun. apply normalize_live_records_inv in Hrun.
    eapply Forall2_impl; [exact Hrun |].
    intros kvs it Hit. apply score_of_row. by left. }
  split; [| split].
  - destruct (normalize_pro_records recs) as (its & Hrun & Hits).
    exists its. split; [exact Hrun |].
    eapply Forall2_impl; [exact Hits |].
    intros kvs it Hit. apply score_of_row. by right.
  - exact Hlive.
  - intros Hok. destruct (normalize_live_records recs Hok) as (its & Hrun).
    exists its. split; [exact Hrun | by apply Hlive].
Qed.

(** The fallbacks of an item made from a dict. *)
Lemma fallback_of_row kvs it :
  (normalize_live_row (VDict kvs) = Ok it ->
     (absent_or_falsy kvs "team_name_radiant" -> team1 it = VStr "Radiant") /\
     (absent_or_falsy kvs "team_name_dire" -> team2 it = VStr "Dire") /\
     (absent_or_falsy kvs "league_name" -> league it = VStr "")) /\
  (normalize_pro_row (VDict kvs) = Ok it ->
     (absent_or_falsy kvs "radiant_name" -> team1 it = VStr "Radiant") /\
     (absent_or_falsy kvs "dire_name" -> team2 it = VStr "Dire") /\
     (absent_or_falsy kvs "league_name" -> league it = VStr "")).
Proof.
  split; intros Hit.
  - destruct (normalize_live_row_fields _ _ Hit) as (-> & -> & -> & _).
    repeat split; apply py_or_fallback.
  - destruct (normalize_pro_row_fields _ _ Hit) as (-> & -> & -> & _).
    repeat split; apply py_or_fallback.
Qed.

(** C10: in both normalizers a team name that is missing or falsy (the
    empty string and [None] among them) is replaced by "Radiant", resp.
    "Dire", and a missing or falsy league name by the empty string.
    [normalize_pro] returns such an item for each of the first 20
    records, [normalize_live] for every record, whenever it returns,
    which it does when every game time is falsy or an int. *)
Theorem falsy_fields_fall_back (recs : list (list (string * pyval))) :
  let live kvs it :=
    (absent_or_falsy kvs "team_name_radiant" -> team1 it = VStr "Radiant") /\
    (absent_or_falsy kvs "team_name_dire" -> team2 it = VStr "Dire") /\
    (absent_or_falsy kvs "league_name" -> league it = VStr "") in
  let pro kvs it :=
    (absent_or_falsy kvs "radiant_name" -> team1 it = VStr "Radiant") /\
    (absent_or_falsy kvs "dire_name" -> team2 it = VStr "Dire") /\
    (absent_or_falsy kvs "league_name" -> league it = VStr "") in
  (truthy VNone = false /\ truthy (VStr "") = false) /\
  (exists its,
     normalize_pro (VList (VDict <$> recs)) = Ok its /\
     Forall2 pro (take 20 recs) its) /\
  (forall its,
     normalize_live (VList (VDict <$> recs)) = Ok its ->
     Forall2 live recs its) /\
  (Forall (fun kvs =>
             let game_time :=
               from_option (fun v => v) (VInt 0) (dict_get kvs "game_time") in
             truthy game_time = false \/ is_int game_time = true) recs ->
   exists its,
     normalize_live (VList (VDict <$> recs)) = Ok its /\
     Forall2 live recs its).
Proof.
  intros live pro.
  assert (Hlive : forall its,
             normalize_live (VList (VDict <$> recs)) = Ok its ->
             Forall2 live recs its).
  { intros its Hrun. apply normalize_live_records_inv in Hrun.
    eapply Forall2_impl; [exact Hrun |].
    intros kvs it Hit. by apply (fallback_of_row kvs it). }
  split; [by split |]. split; [| split].
  - destruct (normalize_pro_records recs) as (its & Hrun & Hits).
    exists its. split; [exact Hrun |].
    eapply Forall2_impl; [exact Hits |].
    intros kvs it Hit. by apply (fallback_of_row kvs it).
  - exact Hlive.
  - intros Hok. destruct (normalize_live_records recs Hok) as (its & Hrun).
    exists its. split; [exact Hrun | by apply Hlive].
Qed.

(** The separator of the source is not the bullet. *)
Lemma live_separator_bytes :
  N_of_ascii <$> list_ascii_of_string live_separator
    = [195; 162; 226; 130; 172; 194; 162]%N /\
  N_of_ascii <$> list_ascii_of_string bullet = [226; 128; 162]%N.
Proof. split; reflexivity. Qed.

(** C2: on the record [{"match_id":1,"radiant_score":3,"dire_score":5,
    "game_time":125}], [normalize_live] returns one item with score
    "3 - 5", team1 "Radiant" and team2 "Dire"; its status is "Live",
    the separator of the source and "2m", which is not "Live", the
    bullet U+2022 and "2m". *)
Theorem normalize_live_example_status :
  exists it,
    normalize_live (VList [VDict [("match_id", VInt 1); ("radiant_score", VInt 3);
                                  ("dire_score", VInt 5); ("game_time", VInt 125)]])
      = Ok [it] /\
    status it = "Live " +:+ live_separator +:+ " 2m" /\
    status it <> "Live " +:+ bullet +:+ " 2m" /\
    score it = "3 - 5" /\
    team1 it = VStr "Radiant" /\
    team2 it = VStr "Dire".
Proof.
  eexists. split; [reflexivity |]. simpl. repeat split. discriminate.
Qed.

(** ** The handlers *)

Lemma dota_live_eq upstream t_get t_set query_params c :
  dota_live upstream t_get t_set query_params c =
  match cache_get c (live_url query_params) t_get with
  | Some cached => (c, JSONResponse true cached)
  | None => after_miss normalize_live CACHE_SECONDS upstream
              (live_url query_params) t_set c
  end.
Proof. reflexivity. Qed.

Lemma dota_recent_eq upstream t_get t_set c :
  dota_recent upstream t_get t_set c =
  match cache_get c OPENDOTA_PRO t_get with
  | Some cached => (c, JSONResponse true cached)
  | None => after_miss normalize_pro 30 upstream OPENDOTA_PRO t_set c
  end.
Proof. reflexivity. Qed.

Lemma append_nil_r (s : string) : s +:+ "" = s.
Proof.
  induction s as [| a s IH]; [reflexivity |].
  change (String a (s +:+ "") = String a s). by rewrite IH.
Qed.

Lemma contains_suffix (pre s : string) : contains (pre +:+ s) s.
Proof. exists pre, "". by rewrite append_nil_r. Qed.

(** After a miss, a reply whose status is not 200 ends the request with
    the 502 error and the cache as it was. *)
Lemma after_miss_not_200 normalize ttl upstream url t_set c r :
  upstream url = Replied r ->
  status_code r <> 200%Z ->
  after_miss normalize ttl upstream url t_set c
    = (c, HTTPException 502 ("OpenDota upstream error " +:+ pretty (status_code r))).
Proof.
  intros Hup Hne. unfold after_miss. rewrite Hup.
  destruct (Z.eqb_spec (status_code r) 200) as [Heq | _]; [by destruct Hne | reflexivity].
Qed.

(** A response that [after_miss] returns is fresh, its upstream reply had
    status 200 and a body [rows] of which it holds the length and the
    normalization, and it has been stored under [url]. *)
Lemma after_miss_response normalize ttl upstream url t_set c c' fromCache p :
  after_miss normalize ttl upstream url t_set c = (c', JSONResponse fromCache p) ->
  fromCache = false /\ c' = cache_set c url p ttl t_set /\
  exists r rows,
    upstream url = Replied r /\ status_code r = 200%Z /\ json_body r = Some rows /\
    py_len rows = Ok (count p) /\ normalize rows = Ok (items p).
Proof.
  unfold after_miss. destruct (upstream url) as [| r] eqn:Hup; [discriminate |].
  destruct (Z.eqb_spec (status_code r) 200) as [Heq | _]; simpl; [| discriminate].
  destruct (json_body r) as [rows |] eqn:Hbody; [| discriminate].
  destruct (py_len rows) as [n |] eqn:Hlen; simpl; [| discriminate].
  destruct (normalize rows) as [its |] eqn:Hits; simpl; [| discriminate].
  intros Hrun. inversion Hrun; subst.
  split; [reflexivity |]. split; [reflexivity |]. by exists r, rows.
Qed.

(** C3: when the upstream replies with a status other than 200, both
    handlers raise the HTTP error 502 whose detail contains that status
    in decimal, and the cache is as it was. *)
Theorem upstream_error_is_502 upstream t_get t_set query_params
    (c : gmap string (entry payload)) r :
  status_code r <> 200%Z ->
  (cache_get c (live_url query_params) t_get = None ->
   upstream (live_url query_params) = Replied r ->
   exists detail,
     dota_live upstream t_get t_set query_params c = (c, HTTPException 502 detail) /\
     contains detail (pretty (status_code r))) /\
  (cache_get c OPENDOTA_PRO t_get = None ->
   upstream OPENDOTA_PRO = Replied r ->
   exists detail,
     dota_recent upstream t_get t_set c = (c, HTTPException 502 detail) /\
     contains detail (pretty (status_code r))).
Proof.
  intros Hne. split; intros Hmiss Hup; eexists; split.
  - rewrite dota_live_eq, Hmiss. by apply after_miss_not_200.
  - apply contains_suffix.
  - rewrite dota_recent_eq, Hmiss. by apply after_miss_not_200.
  - apply contains_suffix.
Qed.

(** C7: the cache key of the live endpoint is a function of the query
    parameters, so that after a fresh response a second request with the
    same parameters, made before the entry is [CACHE_SECONDS] old, is
    served from the cache with the same payload. *)
Theorem same_params_served_from_cache upstream1 upstream2 t_get1 t_set1 t_get2 t_set2
    q1 q2 (c c1 : gmap string (entry payload)) p :
  q1 = q2 ->
  dota_live upstream1 t_get1 t_set1 q1 c = (c1, JSONResponse false p) ->
  (t_get2 - t_set1 < inject_Z CACHE_SECONDS)%Q ->
  live_url q1 = live_url q2 /\
  dota_live upstream2 t_get2 t_set2 q2 c1 = (c1, JSONResponse true p).
Proof.
  intros <- Hfirst Hin. split; [reflexivity |].
  rewrite dota_live_eq in Hfirst.
  destruct (cache_get c (live_url q1) t_get1) as [cached |]; [discriminate |].
  apply after_miss_response in Hfirst as (_ & -> & _).
  rewrite dota_live_eq, cache_get_fresh; [reflexivity | lra].
Qed.

(** C1: the count is the length of the parsed body, not of the items.
    The recent endpoint answers 25 records with count 25 and 20 items;
    the live endpoint answers a JSON object of one member with count 1
    and no item. *)
Theorem count_is_length_of_body :
  let up rows := fun _ : string =>
    Replied {| status_code := 200; json_body := Some rows |} in
  (exists c p,
     dota_recent (up (VList (replicate 25 (VDict [])))) 0 0 ∅
       = (c, JSONResponse false p) /\
     count p = 25 /\ length (items p) = 20) /\
  (exists c p,
     dota_live (up (VDict [("error", VStr "rate limit")])) 0 0 [] ∅
       = (c, JSONResponse false p) /\
     count p = 1 /\ items p = []).
Proof.
  split; eexists _, _; (split; [reflexivity |]); split; reflexivity.
Qed.

(** C5: a body that parses to [null], to a boolean or to a number makes
    both handlers end with an uncaught [TypeError], raised by [len],
    and nothing is cached. *)
Theorem scalar_body_raises_TypeError t_get t_set query_params :
  let run rows :=
    let up := fun _ : string =>
      Replied {| status_code := 200; json_body := Some rows |} in
    (dota_live up t_get t_set query_params ∅, dota_recent up t_get t_set ∅) in
  let raised := ((∅, Unhandled TypeError), (∅, Unhandled TypeError)) in
  run VNone = raised /\
  (forall b, run (VBool b) = raised) /\
  (forall z, run (VInt z) = raised).
Proof. repeat split. Qed.

(** A body that is not a list but has a length (an object, a string) is
    answered with no item and that length as count. *)
Lemma sized_body_not_a_list rows n upstream t_get t_set query_params
    (c : gmap string (entry payload)) :
  (forall l, rows <> VList l) ->
  py_len rows = Ok n ->
  (cache_get c (live_url query_params) t_get = None ->
   upstream (live_url query_params)
     = Replied {| status_code := 200; json_body := Some rows |} ->
   (dota_live upstream t_get t_set query_params c).2
     = JSONResponse false {| count := n; items := [] |}) /\
  (cache_get c OPENDOTA_PRO t_get = None ->
   upstream OPENDOTA_PRO
     = Replied {| status_code := 200; json_body := Some rows |} ->
   (dota_recent upstream t_get t_set c).2
     = JSONResponse false {| count := n; items := [] |}).
Proof.
  intros Hnl Hlen. destruct (normalize_not_a_list _ Hnl) as [Hlive Hpro].
  split; intros Hmiss Hup.
  - rewrite dota_live_eq, Hmiss. unfold after_miss. rewrite Hup. simpl.
    rewrite Hlen, Hlive. reflexivity.
  - rewrite dota_recent_eq, Hmiss. unfold after_miss. rewrite Hup. simpl.
    rewrite Hlen, Hpro. reflexivity.
Qed.

(** On the live endpoint the count of a fresh response to a list is the
    number of its items. *)
Lemma dota_live_count_of_list upstream t_get t_set query_params
    (c c' : gmap string (entry payload)) p l :
  upstream (live_url query_params)
    = Replied {| status_code := 200; json_body := Some (VList l) |} ->
  dota_live upstream t_get t_set query_params c = (c', JSONResponse false p) ->
  count p = length l /\ length (items p) = length l.
Proof.
  intros Hup. rewrite dota_live_eq.
  destruct (cache_get c _ t_get); [discriminate |]. intros Hrun.
  apply after_miss_response in Hrun
    as (_ & _ & r & rows & Hup' & _ & Hbody & Hlen & Hits).
  rewrite Hup in Hup'. injection Hup' as <-. simpl in Hbody.
  injection Hbody as <-. apply normalize_live_length in Hits.
  simpl in Hlen. split; congruence.
Qed.

(** On the recent endpoint the count is the number of records of the
    body, the items are at most 20. *)
Lemma dota_recent_count_of_list upstream t_get t_set
    (c c' : gmap string (entry payload)) p l :
  upstream OPENDOTA_PRO
    = Replied {| status_code := 200; json_body := Some (VList l) |} ->
  dota_recent upstream t_get t_set c = (c', JSONResponse false p) ->
  count p = length l /\ length (items p) = Nat.min 20 (length l).
Proof.
  intros Hup. rewrite dota_recent_eq.
  destruct (cache_get c _ t_get); [discriminate |]. intros Hrun.
  apply after_miss_response in Hrun
    as (_ & _ & r & rows & Hup' & _ & Hbody & Hlen & Hits).
  rewrite Hup in Hup'. injection Hup' as <-. simpl in Hbody.
  injection Hbody as <-. apply normalize_pro_length in Hits.
  simpl in Hlen. split; congruence.
Qed.

(** * Further properties *)

(** ** The cache *)

(** X1: writing under one key leaves what is read under every other
    key. *)
Theorem cache_set_other_key {A : Type} (c : gmap string (entry A)) k k' (v : A)
    T t0 t :
  k <> k' -> cache_get (cache_set c k v T t0) k' t = cache_get c k' t.
Proof.
  intros Hne. unfold cache_get. by rewrite cache_set_lookup_other.
Qed.

(** X2: entries only expire: what is read at some time is read at every
    earlier time, and what is absent at some time is absent later. *)
Theorem cache_get_monotone {A : Type} (c : gmap string (entry A)) k (v : A) t t' :
  (t' <= t)%Q ->
  (cache_get c k t = Some v -> cache_get c k t' = Some v) /\
  (cache_get c k t' = None -> cache_get c k t = None).
Proof.
  intros Hle. unfold cache_get. destruct (c !! k) as [e |]; [| done].
  destruct (Qlt_le_dec (exp e) t), (Qlt_le_dec (exp e) t'); split;
    try done; lra.
Qed.

(** X3: a negative ttl stores an entry that is already expired: the key
    reads as absent from then on, whatever it held before. *)
Theorem cache_set_negative_ttl {A : Type} (c : gmap string (entry A)) k (v : A)
    T t0 t :
  (T < 0)%Z -> (t0 <= t)%Q -> cache_get (cache_set c k v T t0) k t = None.
Proof.
  intros HT Ht. apply cache_get_expired.
  assert (inject_Z T < 0)%Q by (unfold Qlt; simpl; lia). lra.
Qed.

(** ** The normalizers *)

Lemma for_rows_acc (body : pyval -> pyres item) rows acc :
  for_rows body rows acc = (fun new => (acc ++ new)%list) <$> for_rows body rows [].
Proof.
  revert acc. induction rows as [| m rest IH]; intros acc; simpl.
  - by rewrite app_nil_r.
  - destruct (body m) as [it | e]; simpl; [| reflexivity].
    rewrite (IH (acc ++ [it])%list), (IH [it]).
    destruct (for_rows body rest []) as [new | e]; simpl; [| reflexivity].
    by rewrite <- app_assoc.
Qed.

Lemma for_rows_app (body : pyval -> pyres item) l1 l2 acc :
  for_rows body (l1 ++ l2) acc = for_rows body l1 acc ≫= for_rows body l2.
Proof.
  revert acc. induction l1 as [| m rest IH]; intros acc; simpl; [reflexivity |].
  destruct (body m) as [it | e]; simpl; [apply IH | reflexivity].
Qed.

(** The loop stops at the first row on which its body raises. *)
Lemma for_rows_raise (body : pyval -> pyres item) l1 m l2 acc e :
  Forall (fun m' => exists it, body m' = Ok it) l1 ->
  body m = Raise e ->
  for_rows body (l1 ++ m :: l2) acc = Raise e.
Proof.
  intros Hl1 Hm. rewrite for_rows_app.
  destruct (for_rows_total body l1 acc Hl1) as (new & -> & _). simpl.
  by rewrite Hm.
Qed.

Lemma normalize_live_row_inv m it :
  normalize_live_row m = Ok it ->
  exists kvs, m = VDict kvs /\ raw it = m /\
    game it = "Dota 2" /\ series it = "" /\ begin_at it = VNone /\
    item_id it = from_option (fun v => v) VNone (dict_get kvs "match_id").
Proof.
  destruct m; try discriminate. unfold normalize_live_row. simpl.
  destruct (truthy _); simpl; [destruct (py_max_0 _); simpl |];
    intros Hit; inversion Hit; by eexists.
Qed.

Lemma normalize_pro_row_inv m it :
  normalize_pro_row m = Ok it ->
  exists kvs, m = VDict kvs /\ raw it = m /\
    game it = "Dota 2" /\ series it = "" /\ begin_at it = VNone /\
    item_id it = from_option (fun v => v) VNone (dict_get kvs "match_id").
Proof.
  destruct m; try discriminate. intros Hit; inversion Hit; by eexists.
Qed.

Lemma normalize_pro_row_not_dict m :
  is_dict m = false -> normalize_pro_row m = Raise AttributeError.
Proof. by destruct m. Qed.

Lemma normalize_live_row_not_dict m :
  is_dict m = false -> normalize_live_row m = Raise AttributeError.
Proof. by destruct m. Qed.

(** The first element of a list that fails a test, with what precedes it. *)
Lemma forallb_false_split {A : Type} (f : A -> bool) (l : list A) :
  forallb f l = false ->
  exists l1 x l2, l = (l1 ++ x :: l2)%list /\ forallb f l1 = true /\ f x = false.
Proof.
  induction l as [| a l IH]; simpl; [discriminate |].
  destruct (f a) eqn:Ha; simpl.
  - intros Hl. destruct (IH Hl) as (l1 & x & l2 & -> & Hl1 & Hx).
    exists (a :: l1), x, l2. simpl. by rewrite Ha, Hl1.
  - intros _. by exists [], a, l.
Qed.

Lemma Forall2_raw (body : pyval -> pyres item) rows new :
  (forall m it, body m = Ok it -> raw it = m) ->
  Forall2 (fun m it => body m = Ok it) rows new -> raw <$> new = rows.
Proof.
  intros Hbody Hall. induction Hall as [| m it rows new Hit _ IH]; [reflexivity |].
  rewrite fmap_cons, IH. by rewrite (Hbody _ _ Hit).
Qed.

Lemma normalize_live_raw l its :
  normalize_live (VList l) = Ok its -> raw <$> its = l.
Proof.
  intros Hrun. apply for_rows_inv in Hrun as (new & -> & Hnew).
  rewrite app_nil_l. eapply Forall2_raw; [| exact Hnew]. intros m it Hit.
  by destruct (normalize_live_row_inv _ _ Hit) as (_ & _ & -> & _).
Qed.

Lemma normalize_pro_raw l its :
  normalize_pro (VList l) = Ok its -> raw <$> its = take 20 l.
Proof.
  intros Hrun. apply for_rows_inv in Hrun as (new & -> & Hnew).
  rewrite app_nil_l. eapply Forall2_raw; [| exact Hnew]. intros m it Hit.
  by destruct (normalize_pro_row_inv _ _ Hit) as (_ & _ & -> & _).
Qed.

(** X4: every item keeps the row it was made from under [raw]: the
    items of [normalize_live] are in the order of the rows, one per row,
    those of [normalize_pro] are made from the first 20 rows. *)
Theorem normalizers_keep_rows l its :
  (normalize_live (VList l) = Ok its -> raw <$> its = l) /\
  (normalize_pro (VList l) = Ok its -> raw <$> its = take 20 l).
Proof. split; [apply normalize_live_raw | apply normalize_pro_raw]. Qed.

Lemma normalize_pro_dicts l :
  forallb is_dict (take 20 l) = true -> exists its, normalize_pro (VList l) = Ok its.
Proof.
  intros Hd. unfold normalize_pro.
  destruct (for_rows_total normalize_pro_row (take 20 l) []) as (its & Hrun & _).
  - apply Forall_forall. intros m Hm.
    pose proof (proj1 (forallb_forall _ _) Hd m (proj1 (list_elem_of_In _ _) Hm)).
    destruct m; try done. apply normalize_pro_row_dict.
  - eauto.
Qed.

Lemma normalize_pro_not_dict l :
  forallb is_dict (take 20 l) = false -> normalize_pro (VList l) = Raise AttributeError.
Proof.
  intros Hd. unfold normalize_pro.
  destruct (forallb_false_split _ _ Hd) as (l1 & m & l2 & -> & Hl1 & Hm).
  apply for_rows_raise; [| by apply normalize_pro_row_not_dict].
  apply Forall_forall. intros m' Hm'.
  pose proof (proj1 (forallb_forall _ _) Hl1 m' (proj1 (list_elem_of_In _ _) Hm')).
  destruct m'; try done. apply normalize_pro_row_dict.
Qed.

(** X5: [normalize_pro] succeeds exactly when each of the first 20 rows
    is a dict, and raises [AttributeError] otherwise; rows after the
    20th are never looked at. *)
Theorem normalize_pro_raises l :
  (forallb is_dict (take 20 l) = true -> exists its, normalize_pro (VList l) = Ok its) /\
  (forallb is_dict (take 20 l) = false -> normalize_pro (VList l) = Raise AttributeError).
Proof. split; [apply normalize_pro_dicts | apply normalize_pro_not_dict]. Qed.

Lemma normalize_live_row_type_error kvs :
  let game_time := from_option (fun v => v) (VInt 0) (dict_get kvs "game_time") in
  truthy game_time = true -> is_int game_time = false ->
  normalize_live_row (VDict kvs) = Raise TypeError.
Proof.
  intros game_time Ht Hi. unfold normalize_live_row. simpl. fold game_time.
  rewrite Ht. by destruct game_time.
Qed.

(** X6: on a list of dicts [normalize_live] returns one item per dict
    when every game time is falsy, an int or a bool; it raises a
    [TypeError], from [max(game_time, 0)], at the first dict whose game
    time is a non-empty string, list or dict. *)
Theorem normalize_live_raises (pre post : list (list (string * pyval))) kvs :
  let game_time_of r := from_option (fun v => v) (VInt 0) (dict_get r "game_time") in
  let fine r := truthy (game_time_of r) = false \/ is_int (game_time_of r) = true in
  (Forall fine pre ->
   exists its, normalize_live (VList (VDict <$> pre)) = Ok its /\
               length its = length pre) /\
  (Forall fine pre ->
   truthy (game_time_of kvs) = true ->
   (exists s, game_time_of kvs = VStr s) \/ (exists l, game_time_of kvs = VList l) \/
   (exists d, game_time_of kvs = VDict d) ->
   normalize_live (VList (VDict <$> (pre ++ kvs :: post)%list)) = Raise TypeError).
Proof.
  intros game_time_of fine. split.
  - intros Hpre. destruct (normalize_live_records pre Hpre) as (its & Hrun).
    exists its. split; [exact Hrun |].
    rewrite (normalize_live_length _ _ Hrun). apply length_fmap.
  - intros Hpre Ht Hkind. unfold normalize_live. rewrite fmap_app, fmap_cons.
    apply for_rows_raise.
    + apply Forall_fmap. eapply Forall_impl; [exact Hpre |].
      intros r Hr. by apply normalize_live_row_dict.
    + apply normalize_live_row_type_error; [exact Ht |].
      change (is_int (game_time_of kvs) = false).
      by destruct Hkind as [[x ->] | [[x ->] | [x ->]]].
Qed.

(** X7: the minutes of the status are the whole minutes of the game time,
    and 0 for a negative one; a game time of 0 gives the bare "Live". *)
Theorem live_status_minutes kvs g it :
  dict_get kvs "game_time" = Some (VInt g) ->
  normalize_live_row (VDict kvs) = Ok it ->
  (g = 0%Z -> status it = "Live") /\
  (g <> 0%Z ->
   exists n : Z,
     status it = "Live " +:+ live_separator +:+ " " +:+ pretty n +:+ "m" /\
     (0 <= n)%Z /\ (60 * n <= Z.max g 0 < 60 * n + 60)%Z).
Proof.
  intros Hg. unfold normalize_live_row. simpl. rewrite Hg. simpl.
  destruct (Z.eqb_spec g 0) as [-> | Hne]; simpl; intros Hit; inversion Hit; simpl.
  - split; [done | by intros []].
  - split; [by intros -> |]. intros _. exists (Z.max g 0 / 60)%Z.
    split; [reflexivity |].
    pose proof (Z.div_mod (Z.max g 0) 60 ltac:(lia)).
    pose proof (Z.mod_pos_bound (Z.max g 0) 60 ltac:(lia)).
    pose proof (Z.div_pos (Z.max g 0) 60 ltac:(lia) ltac:(lia)). lia.
Qed.

(** X8: every item of both normalizers has the game "Dota 2", an empty
    series and no start time, and its id is the [match_id] of its row,
    [None] when the row has none. *)
Theorem items_fixed_fields rows its :
  normalize_live rows = Ok its \/ normalize_pro rows = Ok its ->
  Forall (fun it =>
            game it = "Dota 2" /\ series it = "" /\ begin_at it = VNone /\
            exists kvs, raw it = VDict kvs /\
              item_id it = from_option (fun v => v) VNone (dict_get kvs "match_id"))
         its.
Proof.
  assert (Hall : forall body rows' new,
             (forall m it, body m = Ok it ->
                exists kvs, m = VDict kvs /\ raw it = m /\
                  game it = "Dota 2" /\ series it = "" /\ begin_at it = VNone /\
                  item_id it = from_option (fun v => v) VNone (dict_get kvs "match_id")) ->
             Forall2 (fun m it => body m = Ok it) rows' new ->
             Forall (fun it =>
               game it = "Dota 2" /\ series it = "" /\ begin_at it = VNone /\
               exists kvs, raw it = VDict kvs /\
                 item_id it = from_option (fun v => v) VNone (dict_get kvs "match_id"))
               new).
  { intros body rows' new Hbody Hnew.
    induction Hnew as [| m it rows' new Hit _ IH]; constructor; [| exact IH].
    destruct (Hbody _ _ Hit) as (kvs & -> & Hraw & Hg & Hs & Hb & Hid).
    repeat split; try done. by exists kvs. }
  intros [Hrun | Hrun]; destruct rows; try (injection Hrun as <-; constructor).
  - apply for_rows_inv in Hrun as (new & -> & Hnew). rewrite app_nil_l.
    eapply Hall; [apply normalize_live_row_inv | exact Hnew].
  - apply for_rows_inv in Hrun as (new & -> & Hnew). rewrite app_nil_l.
    eapply Hall; [apply normalize_pro_row_inv | exact Hnew].
Qed.

(** X9: a team name or a league name that is truthy is passed on as it is,
    whatever kind of value it is. *)
Theorem truthy_fields_pass_through kvs it v :
  truthy v = true ->
  (normalize_live_row (VDict kvs) = Ok it ->
     (dict_get kvs "team_name_radiant" = Some v -> team1 it = v) /\
     (dict_get kvs "team_name_dire" = Some v -> team2 it = v) /\
     (dict_get kvs "league_name" = Some v -> league it = v)) /\
  (normalize_pro_row (VDict kvs) = Ok it ->
     (dict_get kvs "radiant_name" = Some v -> team1 it = v) /\
     (dict_get kvs "dire_name" = Some v -> team2 it = v) /\
     (dict_get kvs "league_name" = Some v -> league it = v)).
Proof.
  intros Hv. split; intros Hit.
  - destruct (normalize_live_row_fields _ _ Hit) as (-> & -> & -> & _).
    repeat split; intros ->; unfold py_or; simpl; by rewrite Hv.
  - destruct (normalize_pro_row_fields _ _ Hit) as (-> & -> & -> & _).
    repeat split; intros ->; unfold py_or; simpl; by rewrite Hv.
Qed.

(** X10: [normalize_live] of two lists put end to end is the items of the
    first followed by the items of the second. *)
Theorem normalize_live_app l1 l2 its1 its2 :
  normalize_live (VList l1) = Ok its1 ->
  normalize_live (VList l2) = Ok its2 ->
  normalize_live (VList (l1 ++ l2)) = Ok (its1 ++ its2)%list.
Proof.
  unfold normalize_live. intros H1 H2.
  rewrite for_rows_app, H1. simpl. rewrite for_rows_acc, H2. reflexivity.
Qed.

(** ** Query strings and cache keys *)

Lemma append_assoc (a b c : string) : (a +:+ b) +:+ c = a +:+ (b +:+ c).
Proof.
  induction a as [| x a IH]; [reflexivity |].
  change (String x ((a +:+ b) +:+ c) = String x (a +:+ (b +:+ c))). by rewrite IH.
Qed.

Lemma all_chars_app P (a b : string) :
  all_chars P (a +:+ b) = all_chars P a && all_chars P b.
Proof.
  induction a as [| x a IH]; [reflexivity |].
  change (P x && all_chars P (a +:+ b) = P x && all_chars P a && all_chars P b).
  rewrite IH. by destruct (P x).
Qed.

Lemma all_chars_impl (P Q : ascii -> bool) s :
  (forall c, P c = true -> Q c = true) ->
  all_chars P s = true -> all_chars Q s = true.
Proof.
  intros HPQ. induction s as [| c s IH]; simpl; [done |].
  intros [Hc Hs]%andb_true_iff. by rewrite (HPQ _ Hc), IH.
Qed.

Ltac each_byte c :=
  let b0 := fresh in let b1 := fresh in let b2 := fresh in let b3 := fresh in
  let b4 := fresh in let b5 := fresh in let b6 := fresh in let b7 := fresh in
  destruct c as [b0 b1 b2 b3 b4 b5 b6 b7];
  destruct b0, b1, b2, b3, b4, b5, b6, b7.

(** What [quote_plus] writes for a byte is read back as that byte. *)
Lemma unquote_head_quote_plus c s rest :
  unquote_head (quote_plus (String c s) +:+ rest) = Some (c, quote_plus s +:+ rest).
Proof. each_byte c; reflexivity. Qed.

Lemma quote_plus_cons_chars c s :
  all_chars quoted_char (quote_plus (String c s))
    = all_chars quoted_char (quote_plus s).
Proof. each_byte c; reflexivity. Qed.

Lemma quote_plus_chars s : all_chars quoted_char (quote_plus s) = true.
Proof.
  induction s as [| c s IH]; [reflexivity |]. by rewrite quote_plus_cons_chars.
Qed.

(** Two encodings followed by something that is not an encoded byte
    (the end, a separator) are equal only for equal strings. *)
Lemma quote_plus_prefix_inj a b ta tb :
  unquote_head ta = None -> unquote_head tb = None ->
  quote_plus a +:+ ta = quote_plus b +:+ tb -> a = b /\ ta = tb.
Proof.
  intros Hta Htb. revert b.
  induction a as [| c a IH]; intros [| d b] Heq.
  - done.
  - change (quote_plus "" +:+ ta) with ta in Heq.
    rewrite Heq, unquote_head_quote_plus in Hta. discriminate.
  - change (quote_plus "" +:+ tb) with tb in Heq.
    rewrite <- Heq, unquote_head_quote_plus in Htb. discriminate.
  - apply (f_equal unquote_head) in Heq.
    rewrite !unquote_head_quote_plus in Heq. injection Heq as <- Heq.
    by destruct (IH _ Heq) as [<- <-].
Qed.

(** X11: [quote_plus] loses nothing: different strings are encoded
    differently. *)
Theorem quote_plus_inj a b : quote_plus a = quote_plus b -> a = b.
Proof.
  intros Heq. apply (quote_plus_prefix_inj a b "" ""); try done.
  by rewrite !append_nil_r.
Qed.

Lemma urlencode_cons kv params :
  urlencode (kv :: params) =
  quote_plus kv.1 +:+ "=" +:+ quote_plus kv.2
    +:+ match params with [] => "" | _ => "&" +:+ urlencode params end.
Proof.
  unfold urlencode. destruct params as [| kv' params]; simpl.
  - by rewrite append_nil_r.
  - by rewrite !append_assoc.
Qed.

(** X12: a query string is made of unreserved characters, [+], [%], [=]
    and [&] only. *)
Theorem urlencode_chars params : all_chars query_char (urlencode params) = true.
Proof.
  assert (Hq : forall s, all_chars query_char (quote_plus s) = true).
  { intros s. apply (all_chars_impl quoted_char); [| apply quote_plus_chars].
    intros c Hc. unfold query_char. by rewrite Hc. }
  induction params as [| kv params IH]; [reflexivity |].
  rewrite urlencode_cons, !all_chars_app, !Hq. simpl.
  destruct params; [reflexivity |]. by rewrite all_chars_app, IH.
Qed.

Lemma urlencode_inj d1 d2 : urlencode d1 = urlencode d2 -> d1 = d2.
Proof.
  revert d2. induction d1 as [| [k v] d1 IH]; intros [| [k' v'] d2].
  - done.
  - rewrite urlencode_cons. destruct (quote_plus (k', v').1); discriminate.
  - rewrite urlencode_cons. destruct (quote_plus (k, v).1); discriminate.
  - rewrite !urlencode_cons. simpl. intros Heq.
    apply quote_plus_prefix_inj in Heq as [<- Heq]; [| done ..].
    injection Heq as Heq.
    apply quote_plus_prefix_inj in Heq as [<- Heq];
      [| by destruct d1 | by destruct d2].
    destruct d1, d2; try done. injection Heq as Heq. by rewrite (IH _ Heq).
Qed.

(** X13: two requests share a cache key exactly when they carry the same
    parameters after [dict()]: no two different sets of parameters are
    ever served from one entry. *)
Theorem live_url_same_key q1 q2 :
  live_url q1 = live_url q2 <-> dict_of_items q1 = dict_of_items q2.
Proof.
  split; [| unfold live_url; by intros ->].
  unfold live_url. intros Heq. apply String.app_inj in Heq.
  apply urlencode_inj.
  destruct (String.eqb_spec (urlencode (dict_of_items q1)) "") as [-> | _],
           (String.eqb_spec (urlencode (dict_of_items q2)) "") as [-> | _];
    try done.
  by injection Heq.
Qed.

(** No request for live matches has the URL of the recent matches. *)
Lemma live_url_not_recent q : live_url q <> OPENDOTA_PRO.
Proof.
  unfold live_url. generalize (urlencode (dict_of_items q)). intros qs.
  destruct (String.eqb qs ""); vm_compute; discriminate.
Qed.

Lemma dict_get_app {V : Type} (d1 d2 : list (string * V)) k :
  dict_get (d1 ++ d2) k
    = match dict_get d1 k with Some v => Some v | None => dict_get d2 k end.
Proof.
  induction d1 as [| [k' v'] d1 IH]; simpl; [reflexivity |].
  by destruct (String.eqb k' k).
Qed.

Lemma dict_get_None {V : Type} (d : list (string * V)) k :
  dict_get d k = None <-> k ∉ d.*1.
Proof.
  induction d as [| [k' v'] d IH]; simpl.
  - split; [intros _; apply not_elem_of_nil | done].
  - rewrite not_elem_of_cons, <- IH.
    destruct (String.eqb_spec k' k) as [-> | Hne].
    + split; [discriminate | by intros [[] _]].
    + split; [by split | by intros [_ ?]].
Qed.

Lemma dict_set_fresh {V : Type} (d : list (string * V)) k v :
  k ∉ d.*1 -> dict_set d k v = (d ++ [(k, v)])%list.
Proof.
  induction d as [| [k' v'] d IH]; simpl; [done |].
  rewrite not_elem_of_cons. intros [Hne Hd].
  destruct (String.eqb_spec k' k) as [-> | _]; [done |]. by rewrite IH.
Qed.

Lemma dict_set_present {V : Type} (d : list (string * V)) k v :
  k ∈ d.*1 -> (dict_set d k v).*1 = d.*1.
Proof.
  induction d as [| [k' v'] d IH]; [by intros ?%elem_of_nil |].
  change (dict_set ((k', v') :: d) k v)
    with (if String.eqb k' k then (k', v) :: d else (k', v') :: dict_set d k v).
  destruct (String.eqb_spec k' k) as [-> | Hne]; [done |].
  rewrite !fmap_cons. intros [? | Hin]%elem_of_cons; [simpl in *; congruence |].
  by rewrite IH.
Qed.

Lemma dict_get_dict_set {V : Type} (d : list (string * V)) k v k' :
  dict_get (dict_set d k v) k'
    = if String.eqb k k' then Some v else dict_get d k'.
Proof.
  induction d as [| [k0 v0] d IH]; simpl; [reflexivity |].
  destruct (String.eqb_spec k0 k) as [-> | Hne]; simpl.
  - by destruct (String.eqb k k').
  - rewrite IH. destruct (String.eqb_spec k0 k') as [-> | _]; [| done].
    destruct (String.eqb_spec k k') as [-> | _]; done.
Qed.

Lemma dict_of_items_from (q acc : list (string * string)) k :
  let d := fold_left (fun d kv => dict_set d kv.1 kv.2) q acc in
  (NoDup acc.*1 -> NoDup d.*1) /\
  dict_get d k = match dict_get (rev q) k with
                 | Some v => Some v
                 | None => dict_get acc k
                 end.
Proof.
  revert acc. induction q as [| [k0 v0] q IH]; intros acc; simpl; [done |].
  destruct (IH (dict_set acc k0 v0)) as [Hnd Hget]. split.
  - intros Hacc. apply Hnd. destruct (decide (k0 ∈ acc.*1)) as [Hin | Hout].
    + by rewrite dict_set_present.
    + rewrite dict_set_fresh, fmap_app by done.
      apply NoDup_app. repeat split; [done | | apply NoDup_singleton].
      intros x Hx ->%list_elem_of_singleton. done.
  - rewrite Hget, dict_get_app, dict_get_dict_set. simpl.
    destruct (dict_get (rev q) k); [done |].
    by destruct (String.eqb k0 k).
Qed.

(** X14: what [dict()] makes of the parameters of a request has each key
    once, with the value of its last occurrence. *)
Theorem dict_of_items_last_wins q k :
  NoDup (dict_of_items q).*1 /\
  dict_get (dict_of_items q) k = dict_get (rev q) k.
Proof.
  destruct (dict_of_items_from q [] k) as [Hnd Hget]. split.
  - apply Hnd. constructor.
  - unfold dict_of_items. rewrite Hget. by destruct (dict_get (rev q) k).
Qed.

(** X15: parameters whose keys are all different are kept as they are, in
    the order in which they came. *)
Theorem dict_of_items_distinct_keys q : NoDup q.*1 -> dict_of_items q = q.
Proof.
  assert (Hgen : forall acc : list (string * string),
             NoDup (acc ++ q)%list.*1 ->
             fold_left (fun d kv => dict_set d kv.1 kv.2) q acc = (acc ++ q)%list).
  { induction q as [| [k v] q IH]; intros acc Hnd; simpl.
    - by rewrite app_nil_r.
    - rewrite dict_set_fresh.
      + rewrite IH; rewrite <- app_assoc; done.
      + rewrite fmap_app in Hnd. apply NoDup_app in Hnd as (_ & Hdis & _).
        intros Hin. apply (Hdis _ Hin). simpl. apply list_elem_of_here. }
  intros Hnd. apply (Hgen []). exact Hnd.
Qed.

(** ** The handlers and the cache *)

Lemma after_miss_cache normalize ttl upstream url t_set c c' o :
  after_miss normalize ttl upstream url t_set c = (c', o) ->
  (exists p, o = JSONResponse false p /\ c' = cache_set c url p ttl t_set) \/
  ((forall p, o <> JSONResponse false p) /\ c' = c).
Proof.
  unfold after_miss. destruct (upstream url) as [| r].
  { intros [= <- <-]. by right. }
  destruct (negb _). { intros [= <- <-]. by right. }
  destruct (json_body r) as [rows |]; [| intros [= <- <-]; by right].
  destruct (_ ≫= _) as [p | e]; intros [= <- <-]; [left; by exists p | by right].
Qed.

(** The outcome after a miss does not depend on what the cache holds. *)
Lemma after_miss_outcome normalize ttl upstream url t_set c c0 :
  (after_miss normalize ttl upstream url t_set c).2
    = (after_miss normalize ttl upstream url t_set c0).2.
Proof.
  unfold after_miss. destruct (upstream url) as [| r]; [done |].
  destruct (negb _); [done |]. destruct (json_body r) as [rows |]; [| done].
  by destruct (_ ≫= _).
Qed.

Lemma cache_effect_frame (c c' : gmap string (entry payload)) url o ttl t_set :
  (exists p, o = JSONResponse false p /\ c' = cache_set c url p ttl t_set) \/
  ((forall p, o <> JSONResponse false p) /\ c' = c) ->
  (forall k, k <> url -> c' !! k = c !! k) /\ dom c ⊆ dom c'.
Proof.
  intros [(p & _ & ->) | (_ & ->)]; [| done]. split.
  - intros k Hne. by apply cache_set_lookup_other.
  - unfold cache_set. rewrite dom_insert_L. set_solver.
Qed.

Lemma dota_live_cache upstream t_get t_set q c c' o :
  dota_live upstream t_get t_set q c = (c', o) ->
  (exists p, o = JSONResponse false p /\
             c' = cache_set c (live_url q) p CACHE_SECONDS t_set) \/
  ((forall p, o <> JSONResponse false p) /\ c' = c).
Proof.
  rewrite dota_live_eq. destruct (cache_get c _ t_get) as [cached |].
  - intros [= <- <-]. by right.
  - apply after_miss_cache.
Qed.

Lemma dota_recent_cache upstream t_get t_set c c' o :
  dota_recent upstream t_get t_set c = (c', o) ->
  (exists p, o = JSONResponse false p /\ c' = cache_set c OPENDOTA_PRO p 30 t_set) \/
  ((forall p, o <> JSONResponse false p) /\ c' = c).
Proof.
  rewrite dota_recent_eq. destruct (cache_get c _ t_get) as [cached |].
  - intros [= <- <-]. by right.
  - apply after_miss_cache.
Qed.

(** X16: a request leaves the cache as it was or sets the entry of its
    own URL, with the ttl of its endpoint, and nothing else: the other
    keys keep their entries and no key is removed.  A fresh response has
    been stored under the URL; a response from the cache and the error
    502 leave the cache as it was. *)
Theorem handlers_write_only_own_entry upstream t_get t_set q
    (c c' : gmap string (entry payload)) o url ttl :
  (dota_live upstream t_get t_set q c = (c', o) /\
   url = live_url q /\ ttl = CACHE_SECONDS) \/
  (dota_recent upstream t_get t_set c = (c', o) /\
   url = OPENDOTA_PRO /\ ttl = 30%Z) ->
  (c' = c \/ exists p, c' = cache_set c url p ttl t_set) /\
  (forall p, o = JSONResponse false p -> c' = cache_set c url p ttl t_set) /\
  (forall cached, o = JSONResponse true cached -> c' = c) /\
  (forall code detail, o = HTTPException code detail -> c' = c) /\
  (forall k, k <> url -> c' !! k = c !! k) /\
  dom c ⊆ dom c'.
Proof.
  intros Hrun.
  assert (Hcase : (exists p, o = JSONResponse false p /\
                             c' = cache_set c url p ttl t_set) \/
                  ((forall p, o <> JSONResponse false p) /\ c' = c)).
  { destruct Hrun as [(Hrun & -> & ->) | (Hrun & -> & ->)].
    - by apply dota_live_cache in Hrun.
    - by apply dota_recent_cache in Hrun. }
  split; [| split; [| split; [| split]]].
  - destruct Hcase as [(p & _ & ->) | (_ & ->)]; [right; by exists p | by left].
  - intros p ->. destruct Hcase as [(p' & [= <-] & ->) | (Hne & _)]; [done |].
    by destruct (Hne p).
  - intros cached ->. by destruct Hcase as [(p' & [=] & _) | (_ & ->)].
  - intros code detail ->. by destruct Hcase as [(p' & [=] & _) | (_ & ->)].
  - by eapply cache_effect_frame.
Qed.

(** X17: the two handlers never touch each other's entry. *)
Theorem handlers_keep_each_others_entry upstream t_get t_set q
    (c : gmap string (entry payload)) :
  (dota_live upstream t_get t_set q c).1 !! OPENDOTA_PRO = c !! OPENDOTA_PRO /\
  (dota_recent upstream t_get t_set c).1 !! live_url q = c !! live_url q.
Proof.
  split.
  - destruct (dota_live upstream t_get t_set q c) as [c' o] eqn:Hrun.
    apply dota_live_cache in Hrun.
    eapply cache_effect_frame; [exact Hrun |].
    intros Heq. by apply (live_url_not_recent q).
  - destruct (dota_recent upstream t_get t_set c) as [c' o] eqn:Hrun.
    apply dota_recent_cache in Hrun.
    eapply cache_effect_frame; [exact Hrun |]. apply live_url_not_recent.
Qed.

(** X18: after a fresh response of the recent endpoint, every request
    made up to 30 seconds after the cache was written is answered from
    the cache with the same payload, without a call of the upstream. *)
Theorem recent_served_from_cache upstream1 upstream2 t_get1 t_set1 t_get2 t_set2
    (c c1 : gmap string (entry payload)) p :
  dota_recent upstream1 t_get1 t_set1 c = (c1, JSONResponse false p) ->
  (t_get2 <= t_set1 + 30)%Q ->
  dota_recent upstream2 t_get2 t_set2 c1 = (c1, JSONResponse true p).
Proof.
  intros Hfirst Hin. rewrite dota_recent_eq in Hfirst.
  destruct (cache_get c OPENDOTA_PRO t_get1) as [cached |]; [discriminate |].
  apply after_miss_response in Hfirst as (_ & -> & _).
  rewrite dota_recent_eq, cache_get_fresh; [reflexivity |].
  change (inject_Z 30) with 30%Q. exact Hin.
Qed.

(** X19: a fresh response is stored with an expiry, and once the clock
    reads later than that stored expiry the entry counts for nothing:
    the request is answered as on an empty cache, by a new call of the
    upstream. *)
Theorem expired_entry_is_refetched upstream1 upstream2 t_get1 t_set1 t_get2 t_set2 q
    (c c1 : gmap string (entry payload)) p :
  (dota_live upstream1 t_get1 t_set1 q c = (c1, JSONResponse false p) ->
   exists e,
     c1 !! live_url q = Some e /\ data e = p /\
     ((exp e < t_get2)%Q ->
      (dota_live upstream2 t_get2 t_set2 q c1).2
        = (dota_live upstream2 t_get2 t_set2 q ∅).2)) /\
  (dota_recent upstream1 t_get1 t_set1 c = (c1, JSONResponse false p) ->
   exists e,
     c1 !! OPENDOTA_PRO = Some e /\ data e = p /\
     ((exp e < t_get2)%Q ->
      (dota_recent upstream2 t_get2 t_set2 c1).2
        = (dota_recent upstream2 t_get2 t_set2 ∅).2)).
Proof.
  split; intros Hfirst.
  - rewrite dota_live_eq in Hfirst.
    destruct (cache_get c (live_url q) t_get1); [discriminate |].
    apply after_miss_response in Hfirst as (_ & -> & _).
    eexists. split; [apply cache_set_lookup |]. split; [reflexivity |].
    simpl. intros Hlate.
    rewrite !dota_live_eq, cache_get_expired by exact Hlate.
    unfold cache_get at 1. rewrite lookup_empty. apply after_miss_outcome.
  - rewrite dota_recent_eq in Hfirst.
    destruct (cache_get c OPENDOTA_PRO t_get1); [discriminate |].
    apply after_miss_response in Hfirst as (_ & -> & _).
    eexists. split; [apply cache_set_lookup |]. split; [reflexivity |].
    simpl. intros Hlate.
    rewrite !dota_recent_eq, cache_get_expired by exact Hlate.
    unfold cache_get at 1. rewrite lookup_empty. apply after_miss_outcome.
Qed.

(** X20: a fresh response to a body that is a list counts the rows of
    the body and holds one item per row, in the order of the rows, on
    the live endpoint, and one item for each of the first 20 rows on the
    recent one. *)
Theorem fresh_response_of_list upstream t_get t_set q
    (c c' : gmap string (entry payload)) p l :
  (upstream (live_url q)
     = Replied {| status_code := 200; json_body := Some (VList l) |} ->
   dota_live upstream t_get t_set q c = (c', JSONResponse false p) ->
   count p = length l /\ raw <$> items p = l /\ count p = length (items p)) /\
  (upstream OPENDOTA_PRO
     = Replied {| status_code := 200; json_body := Some (VList l) |} ->
   dota_recent upstream t_get t_set c = (c', JSONResponse false p) ->
   count p = length l /\ raw <$> items p = take 20 l /\
   length (items p) = Nat.min 20 (count p)).
Proof.
  split; intros Hup Hrun.
  - rewrite dota_live_eq in Hrun.
    destruct (cache_get c _ t_get); [discriminate |].
    apply after_miss_response in Hrun
      as (_ & _ & r & rows & Hup' & _ & Hbody & Hlen & Hits).
    rewrite Hup in Hup'. injection Hup' as <-. injection Hbody as <-.
    injection Hlen as <-. pose proof (normalize_live_length _ _ Hits).
    by rewrite (normalize_live_raw _ _ Hits).
  - rewrite dota_recent_eq in Hrun.
    destruct (cache_get c _ t_get); [discriminate |].
    apply after_miss_response in Hrun
      as (_ & _ & r & rows & Hup' & _ & Hbody & Hlen & Hits).
    rewrite Hup in Hup'. injection Hup' as <-. injection Hbody as <-.
    injection Hlen as <-. pose proof (normalize_pro_length _ _ Hits).
    by rewrite (normalize_pro_raw _ _ Hits).
Qed.

(** X21: a body that is not a list but has a length, such as the
    object of an error message, is answered with no item and is cached
    like any other result, for the ttl of the endpoint. *)
Theorem body_not_a_list_is_cached rows n upstream t_get t_set q
    (c : gmap string (entry payload)) :
  (forall l, rows <> VList l) ->
  py_len rows = Ok n ->
  let p := {| count := n; items := [] |} in
  (cache_get c (live_url q) t_get = None ->
   upstream (live_url q)
     = Replied {| status_code := 200; json_body := Some rows |} ->
   dota_live upstream t_get t_set q c
     = (cache_set c (live_url q) p CACHE_SECONDS t_set, JSONResponse false p)) /\
  (cache_get c OPENDOTA_PRO t_get = None ->
   upstream OPENDOTA_PRO
     = Replied {| status_code := 200; json_body := Some rows |} ->
   dota_recent upstream t_get t_set c
     = (cache_set c OPENDOTA_PRO p 30 t_set, JSONResponse false p)).
Proof.
  intros Hnl Hlen p. destruct (normalize_not_a_list _ Hnl) as [Hlive Hpro].
  split; intros Hmiss Hup.
  - rewrite dota_live_eq, Hmiss. unfold after_miss. rewrite Hup. simpl.
    by rewrite Hlen, Hlive.
  - rewrite dota_recent_eq, Hmiss. unfold after_miss. rewrite Hup. simpl.
    by rewrite Hlen, Hpro.
Qed.

Lemma after_miss_200 normalize ttl upstream url t_set
    (c : gmap string (entry payload)) rows :
  upstream url = Replied {| status_code := 200; json_body := Some rows |} ->
  after_miss normalize ttl upstream url t_set c =
  match (n ← py_len rows; its ← normalize rows;
         Ok {| count := n; items := its |}) with
  | Raise e => (c, Unhandled e)
  | Ok p => (cache_set c url p ttl t_set, JSONResponse false p)
  end.
Proof. intros Hup. unfold after_miss. by rewrite Hup. Qed.

Lemma normalize_live_row_exn m e :
  normalize_live_row m = Raise e -> e = AttributeError \/ e = TypeError.
Proof.
  destruct m; try (intros [= <-]; by left).
  unfold normalize_live_row. simpl.
  destruct (from_option (fun v => v) (VInt 0) (dict_get kvs "game_time"))
    as [| b | z | s | [| x l] | [| x d]]; simpl;
    try discriminate; try (intros [= <-]; by right).
  - by destruct b.
  - by destruct (negb _).
  - destruct (negb _); simpl; [intros [= <-]; by right | discriminate].
Qed.

Lemma for_rows_exn (body : pyval -> pyres item) rows acc e :
  for_rows body rows acc = Raise e -> exists m, m ∈ rows /\ body m = Raise e.
Proof.
  revert acc. induction rows as [| m rest IH]; intros acc; simpl; [discriminate |].
  destruct (body m) as [it | e'] eqn:Hm; simpl.
  - intros Hrun. destruct (IH _ Hrun) as (m' & Hin & Hm').
    exists m'. split; [by apply list_elem_of_further | done].
  - intros [= <-]. exists m. split; [apply list_elem_of_here | done].
Qed.

Lemma normalize_live_not_dict l :
  forallb is_dict l = false ->
  exists e, normalize_live (VList l) = Raise e /\
            (e = AttributeError \/ e = TypeError).
Proof.
  intros Hd. unfold normalize_live.
  destruct (for_rows normalize_live_row l []) as [its | e] eqn:Hrun.
  - apply for_rows_inv in Hrun as (new & _ & Hnew).
    destruct (forallb_false_split _ _ Hd) as (l1 & m & l2 & -> & _ & Hm).
    apply Forall2_app_inv_l in Hnew as (k1 & k2 & _ & Hk2 & _).
    inversion Hk2 as [| ? it ? ? Hit]; subst.
    by rewrite normalize_live_row_not_dict in Hit.
  - exists e. split; [done |].
    apply for_rows_exn in Hrun as (m & _ & Hm). by eapply normalize_live_row_exn.
Qed.

(** X22: a list in which a row is not an object makes the live
    handler end with an uncaught [AttributeError] or [TypeError]; the
    recent handler ends with an [AttributeError] when the row is among
    the first 20.  Nothing is cached. *)
Theorem row_not_a_dict_fails l upstream t_get t_set q
    (c : gmap string (entry payload)) :
  (cache_get c (live_url q) t_get = None ->
   upstream (live_url q)
     = Replied {| status_code := 200; json_body := Some (VList l) |} ->
   forallb is_dict l = false ->
   exists e, dota_live upstream t_get t_set q c = (c, Unhandled e) /\
             (e = AttributeError \/ e = TypeError)) /\
  (cache_get c OPENDOTA_PRO t_get = None ->
   upstream OPENDOTA_PRO
     = Replied {| status_code := 200; json_body := Some (VList l) |} ->
   forallb is_dict (take 20 l) = false ->
   dota_recent upstream t_get t_set c = (c, Unhandled AttributeError)).
Proof.
  split; intros Hmiss Hup Hd.
  - destruct (normalize_live_not_dict _ Hd) as (e & Hrun & He).
    exists e. split; [| exact He].
    by rewrite dota_live_eq, Hmiss, (after_miss_200 _ _ _ _ _ _ _ Hup), Hrun.
  - by rewrite dota_recent_eq, Hmiss, (after_miss_200 _ _ _ _ _ _ _ Hup),
         (normalize_pro_not_dict _ Hd).
Qed.

(** X23: of two writes under one key only the second remains, and
    writes under different keys can be made in either order. *)
Theorem cache_set_last_write_wins {A : Type} (c : gmap string (entry A)) k1 k2
    (v1 v2 : A) T1 T2 t1 t2 :
  cache_set (cache_set c k1 v1 T1 t1) k1 v2 T2 t2 = cache_set c k1 v2 T2 t2 /\
  (k1 <> k2 ->
   cache_set (cache_set c k1 v1 T1 t1) k2 v2 T2 t2
     = cache_set (cache_set c k2 v2 T2 t2) k1 v1 T1 t1).
Proof.
  unfold cache_set. split.
  - apply insert_insert_eq.
  - intros Hne. by apply insert_insert_ne.
Qed.

(** X24: a string of letters, digits and [_.-~] is its own encoding. *)
Theorem quote_plus_unreserved s : all_chars always_safe s = true -> quote_plus s = s.
Proof.
  induction s as [| c s IH]; [reflexivity |].
  intros [Hc Hs]%andb_true_iff.
  change (quote_plus (String c s))
    with ((if always_safe c then String c ""
           else if Ascii.eqb c " " then "+" else percent_byte c) +:+ quote_plus s).
  rewrite Hc, IH by exact Hs. reflexivity.
Qed.

Lemma dict_set_not_nil {V : Type} (d : list (string * V)) k v : dict_set d k v <> [].
Proof. destruct d as [| [k' v'] d]; simpl; [done |]. by destruct (String.eqb k' k). Qed.

Lemma dict_of_items_nil q : dict_of_items q = [] -> q = [].
Proof.
  assert (Hgen : forall (q' acc : list (string * string)),
             acc <> [] -> fold_left (fun d kv => dict_set d kv.1 kv.2) q' acc <> []).
  { induction q' as [| kv q' IH]; intros acc Hacc; simpl; [done |].
    apply IH, dict_set_not_nil. }
  destruct q as [| kv q]; [done |]. intros Hq. exfalso.
  by apply (Hgen q (dict_set [] kv.1 kv.2) (dict_set_not_nil _ _ _)).
Qed.

(** X25: the URL of a request is the bare URL of the live matches
    exactly when the request has no parameter; with parameters it is
    that URL, a question mark and the query string. *)
Theorem live_url_bare q :
  (live_url q = OPENDOTA_LIVE <-> q = []) /\
  (q <> [] ->
   live_url q = OPENDOTA_LIVE +:+ "?" +:+ urlencode (dict_of_items q)).
Proof.
  assert (Hqs : q <> [] -> urlencode (dict_of_items q) <> "").
  { intros Hq Hqs. apply Hq, dict_of_items_nil.
    by apply urlencode_inj. }
  split; [split |].
  - intros Heq. destruct q as [| kv q]; [done |]. exfalso.
    unfold live_url in Heq.
    destruct (String.eqb_spec (urlencode (dict_of_items (kv :: q))) "")
      as [Hqs' | _]; [by apply Hqs in Hqs' |].
    rewrite <- (append_nil_r OPENDOTA_LIVE) in Heq at 2.
    by apply String.app_inj in Heq.
  - by intros ->.
  - intros Hq. unfold live_url.
    by destruct (String.eqb_spec (urlencode (dict_of_items q)) "")
      as [Hqs' %Hqs | _].
Qed.

End App.

(** * The properties on concrete inputs *)



Lemma cache_set_get_ignores_history_witness :
  let old := cache_set (∅ : gmap string (entry nat)) "k" 1 30 0%Q in
  (9 - 5 < inject_Z 10)%Q /\
  cache_get (cache_set old "k" 2 10 5%Q) "k" 9%Q = Some 2.
Proof.
  intros old. split; [reflexivity |].
  apply (cache_set_get_ignores_history old "k" 2 10 5%Q 9%Q). reflexivity.
Defined.

Lemma normalize_pro_caps_at_20_witness :
  let recs := (fun i => [("match_id", VInt i)]) <$> seqZ 1 25 in
  length recs = 25 /\
  exists its,
    normalize_pro quoted (VList (VDict <$> recs)) = Ok its /\
    length its = 20 /\
    Forall2 (fun r it => normalize_pro_row quoted (VDict r) = Ok it)
            (take 20 recs) its /\
    Forall (fun it => status it = "Finished") its.
Proof.
  intros recs. split; [reflexivity |].
  apply (normalize_pro_caps_at_20 quoted recs). reflexivity.
Defined.

Lemma score_default_only_when_absent_witness :
  let recs := [[("match_id", VInt 7); ("radiant_score", VNone)];
               [("dire_score", VNone); ("game_time", VInt 125)]] in
  (exists its, normalize_pro quoted (VList (VDict <$> recs)) = Ok its /\
               score <$> its = ["None - 0"; "0 - None"]) /\
  (exists its, normalize_live quoted (VList (VDict <$> recs)) = Ok its /\
               score <$> its = ["None - 0"; "0 - None"]).
Proof.
  intros recs.
  destruct (score_default_only_when_absent quoted recs)
    as ((pro & Hpro & Hpros) & _ & Hlive).
  destruct Hlive as (live & Hlive & Hlives).
  { constructor; [left; reflexivity |].
    constructor; [right; reflexivity | constructor]. }
  split; [exists pro | exists live]; (split; [assumption |]).
  - inversion Hpros as [| kvs1 it1 r1 l1 H1 Hrest]; subst.
    inversion Hrest as [| kvs2 it2 r2 l2 H2 Hnil]; subst.
    inversion Hnil; subst.
    destruct H1 as (ra1 & di1 & E1 & _ & Hra1 & Hdi1 & _).
    destruct H2 as (ra2 & di2 & E2 & Hra2 & _ & _ & Hdi2).
    simpl. rewrite E1, E2, (Hra1 eq_refl), (Hdi1 eq_refl), (Hra2 eq_refl),
      (Hdi2 eq_refl). reflexivity.
  - inversion Hlives as [| kvs1 it1 r1 l1 H1 Hrest]; subst.
    inversion Hrest as [| kvs2 it2 r2 l2 H2 Hnil]; subst.
    inversion Hnil; subst.
    destruct H1 as (ra1 & di1 & E1 & _ & Hra1 & Hdi1 & _).
    destruct H2 as (ra2 & di2 & E2 & Hra2 & _ & _ & Hdi2).
    simpl. rewrite E1, E2, (Hra1 eq_refl), (Hdi1 eq_refl), (Hra2 eq_refl),
      (Hdi2 eq_refl). reflexivity.
Defined.

Lemma falsy_fields_fall_back_witness :
  let recs := [[("team_name_radiant", VStr ""); ("radiant_name", VNone);
                ("team_name_dire", VNone); ("dire_name", VStr "");
                ("league_name", VStr "")]] in
  (exists it, normalize_pro quoted (VList (VDict <$> recs)) = Ok [it] /\
              team1 it = VStr "Radiant" /\ team2 it = VStr "Dire" /\
              league it = VStr "") /\
  (exists it, normalize_live quoted (VList (VDict <$> recs)) = Ok [it] /\
              team1 it = VStr "Radiant" /\ team2 it = VStr "Dire" /\
              league it = VStr "").
Proof.
  intros recs.
  destruct (falsy_fields_fall_back quoted recs)
    as (_ & (pro & Hpro & Hpros) & _ & Hlive).
  destruct Hlive as (live & Hlive & Hlives).
  { constructor; [left; reflexivity | constructor]. }
  split.
  - inversion Hpros as [| kvs1 it1 r1 l1 (H1 & H2 & H3) Hnil]; subst.
    inversion Hnil; subst. exists it1. split; [exact Hpro |].
    split; [apply H1 | split; [apply H2 | apply H3]];
      right; eexists; split; reflexivity.
  - inversion Hlives as [| kvs1 it1 r1 l1 (H1 & H2 & H3) Hnil]; subst.
    inversion Hnil; subst. exists it1. split; [exact Hlive |].
    split; [apply H1 | split; [apply H2 | apply H3]];
      right; eexists; split; reflexivity.
Defined.

Lemma upstream_error_is_502_witness :
  let r := {| status_code := 503; json_body := None |} in
  let upstream := fun _ : string => Replied r in
  status_code r <> 200%Z /\
  (exists detail,
     dota_live quoted upstream 0 0 [("league_id", "1")] ∅
       = (∅, HTTPException 502 detail) /\ contains detail "503") /\
  (exists detail,
     dota_recent quoted upstream 0 0 ∅ = (∅, HTTPException 502 detail) /\
     contains detail "503").
Proof.
  intros r upstream.
  assert (Hne : status_code r <> 200%Z) by discriminate.
  split; [exact Hne |].
  destruct (upstream_error_is_502 quoted upstream 0 0 [("league_id", "1")] ∅ r Hne)
    as [Hlive Hrecent].
  split; [apply Hlive | apply Hrecent]; reflexivity.
Defined.

Lemma same_params_served_from_cache_witness :
  let q := [("league_id", "15 4"); ("league_id", "7")] in
  let up1 := fun _ : string =>
    Replied {| status_code := 200;
               json_body := Some (VList [VDict [("match_id", VInt 1)]]) |} in
  let up2 := fun _ : string => Failed in
  live_url q = "https://api.opendota.com/api/live?league_id=7" /\
  exists c1 p,
    dota_live quoted up1 0 1 q ∅ = (c1, JSONResponse false p) /\
    (5 - 1 < inject_Z CACHE_SECONDS)%Q /\
    dota_live quoted up2 5 6 q c1 = (c1, JSONResponse true p).
Proof.
  intros q up1 up2. split; [reflexivity |].
  eexists _, _. split; [reflexivity |]. split; [reflexivity |].
  eapply proj2.
  apply (same_params_served_from_cache quoted up1 up2 0 1 5 6 q q ∅);
    reflexivity.
Defined.

(** ** The model run on further inputs *)

Example live_url_no_params : live_url [] = "https://api.opendota.com/api/live".
Proof. reflexivity. Qed.

Example live_url_quote_plus :
  live_url [("q", "12 3/é"); ("a", ""); ("q", "x~y_z")]
    = "https://api.opendota.com/api/live?q=x~y_z&a=" /\
  live_url [("q", "12 3/é")] = "https://api.opendota.com/api/live?q=12+3%2F%C3%A9".
Proof. split; reflexivity. Qed.

Example normalize_live_empty : normalize_live quoted (VList []) = Ok [].
Proof. reflexivity. Qed.

Example normalize_live_game_time :
  status <$> normalize_live_row quoted (VDict [("game_time", VInt (-5))])
    = Ok ("Live " +:+ live_separator +:+ " 0m") /\
  status <$> normalize_live_row quoted (VDict [("game_time", VInt 0)]) = Ok "Live" /\
  status <$> normalize_live_row quoted (VDict [("game_time", VNone)]) = Ok "Live" /\
  status <$> normalize_live_row quoted (VDict [("game_time", VBool true)])
    = Ok ("Live " +:+ live_separator +:+ " 0m") /\
  normalize_live_row quoted (VDict [("game_time", VStr "12:05")]) = Raise TypeError.
Proof. repeat split. Qed.

Example normalize_row_not_a_dict :
  normalize_live quoted (VList [VInt 1]) = Raise AttributeError /\
  normalize_pro quoted (VList [VDict []; VStr "x"]) = Raise AttributeError.
Proof. split; reflexivity. Qed.

Example score_of_a_list :
  score <$> normalize_pro_row quoted
              (VDict [("radiant_score", VList [VInt 1; VNone]); ("dire_score", VBool true)])
    = Ok "[1, None] - True".
Proof. reflexivity. Qed.

(** * The further properties on concrete inputs *)

Lemma cache_set_other_key_witness :
  let c := cache_set (∅ : gmap string (entry nat)) "a" 1 10 0%Q in
  "b" <> "a" /\ cache_get (cache_set c "b" 2 10 3%Q) "a" 5%Q = Some 1.
Proof.
  intros c. split; [discriminate |].
  rewrite (cache_set_other_key c "b" "a" 2 10 3%Q 5%Q); [reflexivity | discriminate].
Defined.

Lemma cache_get_monotone_witness :
  let c := cache_set (∅ : gmap string (entry nat)) "a" 1 10 0%Q in
  (4 <= 8)%Q /\ cache_get c "a" 4%Q = Some 1.
Proof.
  intros c.
  assert (Hle : (4 <= 8)%Q) by (vm_compute; discriminate).
  split; [exact Hle |].
  apply (proj1 (cache_get_monotone c "a" 1 8%Q 4%Q Hle)). reflexivity.
Defined.

Lemma cache_set_negative_ttl_witness :
  let c := cache_set (∅ : gmap string (entry nat)) "a" 1 10 0%Q in
  cache_get c "a" 2%Q = Some 1 /\
  cache_get (cache_set c "a" 9 (-1) 2%Q) "a" 2%Q = None.
Proof.
  intros c. split; [reflexivity |].
  apply (cache_set_negative_ttl c "a" 9 (-1) 2%Q 2%Q); [reflexivity |].
  vm_compute. discriminate.
Defined.

Lemma cache_set_last_write_wins_witness :
  let c := (∅ : gmap string (entry nat)) in
  "a" <> "b" /\
  cache_set (cache_set c "a" 1 10 0%Q) "b" 2 30 1%Q
    = cache_set (cache_set c "b" 2 30 1%Q) "a" 1 10 0%Q.
Proof.
  intros c. split; [discriminate |].
  apply (proj2 (cache_set_last_write_wins c "a" "b" 1 2 10 30 0%Q 1%Q)).
  discriminate.
Defined.

Lemma normalizers_keep_rows_witness :
  let l := (fun i => VDict [("match_id", VInt i)]) <$> seqZ 1 22 in
  exists live pro,
    normalize_live quoted (VList l) = Ok live /\ raw <$> live = l /\
    normalize_pro quoted (VList l) = Ok pro /\ raw <$> pro = take 20 l.
Proof.
  intros l. eexists _, _.
  split; [reflexivity |]. split.
  { apply (proj1 (normalizers_keep_rows quoted l _)). reflexivity. }
  split; [reflexivity |].
  apply (proj2 (normalizers_keep_rows quoted l _)). reflexivity.
Defined.

Lemma normalize_pro_raises_witness :
  let good := (replicate 20 (VDict []) ++ [VInt 7])%list in
  let bad := (replicate 19 (VDict []) ++ [VInt 7])%list in
  (exists its, normalize_pro quoted (VList good) = Ok its) /\
  normalize_pro quoted (VList bad) = Raise AttributeError.
Proof.
  intros good bad. split.
  - apply (proj1 (normalize_pro_raises quoted good)). reflexivity.
  - apply (proj2 (normalize_pro_raises quoted bad)). reflexivity.
Defined.

Lemma normalize_live_raises_witness :
  let pre := [[("match_id", VInt 1); ("game_time", VInt 125)];
              [("match_id", VInt 2); ("game_time", VBool true)];
              [("match_id", VInt 3)]] in
  (exists its, normalize_live quoted (VList (VDict <$> pre)) = Ok its /\
               length its = 3) /\
  normalize_live quoted
    (VList (VDict <$> (pre ++ [("game_time", VStr "12:05")] :: [[]])%list))
    = Raise TypeError.
Proof.
  intros pre.
  assert (Hpre : Forall (fun r =>
            truthy (from_option (fun v => v) (VInt 0) (dict_get r "game_time")) = false \/
            is_int (from_option (fun v => v) (VInt 0) (dict_get r "game_time")) = true)
            pre).
  { constructor; [right; reflexivity |].
    constructor; [right; reflexivity |].
    constructor; [left; reflexivity | constructor]. }
  split.
  - apply (proj1 (normalize_live_raises quoted pre [] []) Hpre).
  - apply (proj2 (normalize_live_raises quoted pre [[]] [("game_time", VStr "12:05")])
             Hpre eq_refl).
    left. by eexists.
Defined.

Lemma live_status_minutes_witness :
  let kvs := [("match_id", VInt 1); ("game_time", VInt 1439)] in
  exists it,
    normalize_live_row quoted (VDict kvs) = Ok it /\
    exists n : Z,
      status it = "Live " +:+ live_separator +:+ " " +:+ pretty n +:+ "m" /\
      (0 <= n)%Z /\ (60 * n <= Z.max 1439 0 < 60 * n + 60)%Z.
Proof.
  intros kvs. eexists. split; [reflexivity |].
  apply (proj2 (live_status_minutes quoted kvs 1439 _ eq_refl eq_refl)).
  discriminate.
Defined.

Lemma items_fixed_fields_witness :
  let rows := VList [VDict [("match_id", VInt 1)]; VDict []] in
  exists its,
    normalize_pro quoted rows = Ok its /\
    Forall (fun it =>
              game it = "Dota 2" /\ series it = "" /\ begin_at it = VNone /\
              exists kvs, raw it = VDict kvs /\
                item_id it = from_option (fun v => v) VNone (dict_get kvs "match_id"))
           its.
Proof.
  intros rows. eexists. split; [reflexivity |].
  apply (items_fixed_fields quoted rows). right. reflexivity.
Defined.

Lemma truthy_fields_pass_through_witness :
  let kvs := [("radiant_name", VStr "Team Spirit"); ("dire_name", VInt 7)] in
  exists it,
    normalize_pro_row quoted (VDict kvs) = Ok it /\
    team1 it = VStr "Team Spirit" /\ team2 it = VInt 7.
Proof.
  intros kvs. eexists. split; [reflexivity |]. split.
  - match goal with |- team1 ?it = _ =>
      destruct (truthy_fields_pass_through quoted kvs it (VStr "Team Spirit") eq_refl)
        as (_ & Hpro)
    end.
    apply (Hpro eq_refl). reflexivity.
  - match goal with |- team2 ?it = _ =>
      destruct (truthy_fields_pass_through quoted kvs it (VInt 7) eq_refl)
        as (_ & Hpro)
    end.
    apply (Hpro eq_refl). reflexivity.
Defined.

Lemma normalize_live_app_witness :
  let l1 := [VDict [("match_id", VInt 1)]] in
  let l2 := [VDict [("match_id", VInt 2)]; VDict [("match_id", VInt 3)]] in
  exists its1 its2,
    normalize_live quoted (VList l1) = Ok its1 /\
    normalize_live quoted (VList l2) = Ok its2 /\
    normalize_live quoted (VList (l1 ++ l2)%list) = Ok (its1 ++ its2)%list.
Proof.
  intros l1 l2. eexists _, _. split; [reflexivity |]. split; [reflexivity |].
  apply (normalize_live_app quoted l1 l2); reflexivity.
Defined.

Lemma quote_plus_inj_witness :
  quote_plus "a b" = quote_plus "a b" /\ "a b" = "a b".
Proof.
  split; [reflexivity |]. apply (quote_plus_inj "a b" "a b"). reflexivity.
Defined.

Lemma quote_plus_unreserved_witness :
  all_chars always_safe "league_id-1.5~x" = true /\
  quote_plus "league_id-1.5~x" = "league_id-1.5~x".
Proof.
  split; [reflexivity |]. apply (quote_plus_unreserved "league_id-1.5~x").
  reflexivity.
Defined.

Lemma live_url_same_key_witness :
  let q1 := [("a", "1"); ("b", "2"); ("a", "3")] in
  let q2 := [("a", "3"); ("b", "2")] in
  dict_of_items q1 = dict_of_items q2 /\ live_url q1 = live_url q2.
Proof.
  intros q1 q2. split; [reflexivity |].
  apply (proj2 (live_url_same_key q1 q2)). reflexivity.
Defined.

Lemma live_url_bare_witness :
  let q := [("league_id", "15")] in
  q <> [] /\
  live_url q = OPENDOTA_LIVE +:+ "?" +:+ urlencode (dict_of_items q).
Proof.
  intros q. assert (Hq : q <> []) by discriminate.
  split; [exact Hq |]. apply (proj2 (live_url_bare q) Hq).
Defined.

Lemma dict_of_items_distinct_keys_witness :
  let q := [("b", "2"); ("a", "1"); ("c", "")] in
  NoDup q.*1 /\ dict_of_items q = q.
Proof.
  intros q. assert (Hnd : NoDup q.*1).
  { repeat constructor; simpl; rewrite ?elem_of_cons, ?elem_of_nil;
      intros H; repeat destruct H as [H | H]; discriminate || done. }
  split; [exact Hnd |]. apply (dict_of_items_distinct_keys q Hnd).
Defined.

Lemma handlers_write_only_own_entry_witness :
  let up := fun _ : string =>
    Replied {| status_code := 200; json_body := Some (VList [VDict []]) |} in
  let old := cache_set (∅ : gmap string (entry payload)) "other"
               {| count := 0; items := [] |} 10 0%Q in
  exists c' p,
    dota_recent quoted up 1 2 old = (c', JSONResponse false p) /\
    c' = cache_set old OPENDOTA_PRO p 30 2%Q /\
    c' !! "other" = old !! "other" /\
    dom old ⊆ dom c'.
Proof.
  intros up old. eexists _, _. split; [reflexivity |].
  match goal with |- ?c' = cache_set _ _ ?p _ _ /\ _ =>
    destruct (handlers_write_only_own_entry quoted up 1 2 [] old c'
                (JSONResponse false p) OPENDOTA_PRO 30
                (or_intror (conj eq_refl (conj eq_refl eq_refl))))
      as (_ & Hfresh & _ & _ & Hframe & Hdom)
  end.
  split; [by apply Hfresh |]. split; [| exact Hdom].
  apply Hframe. discriminate.
Defined.

Lemma recent_served_from_cache_witness :
  let up1 := fun _ : string =>
    Replied {| status_code := 200;
               json_body := Some (VList [VDict [("match_id", VInt 1)]]) |} in
  let up2 := fun _ : string => Failed in
  exists c1 p,
    dota_recent quoted up1 0 1 ∅ = (c1, JSONResponse false p) /\
    (31 <= 1 + 30)%Q /\
    dota_recent quoted up2 31 32 c1 = (c1, JSONResponse true p).
Proof.
  intros up1 up2.
  assert (Hin : (31 <= 1 + 30)%Q) by (vm_compute; discriminate).
  eexists _, _. split; [reflexivity |]. split; [exact Hin |].
  apply (recent_served_from_cache quoted up1 up2 0 1 31 32 ∅);
    [reflexivity | exact Hin].
Defined.

Lemma expired_entry_is_refetched_witness :
  let up1 := fun _ : string =>
    Replied {| status_code := 200;
               json_body := Some (VList [VDict [("match_id", VInt 1)]]) |} in
  let up2 := fun _ : string =>
    Replied {| status_code := 503; json_body := None |} in
  exists c1 p e,
    dota_live quoted up1 0 1 [] ∅ = (c1, JSONResponse false p) /\
    c1 !! live_url [] = Some e /\ (exp e < 12)%Q /\
    (dota_live quoted up2 12 13 [] c1).2
      = HTTPException 502 "OpenDota upstream error 503".
Proof.
  intros up1 up2.
  assert (Hfirst : exists c1 p,
             dota_live quoted up1 0 1 [] ∅ = (c1, JSONResponse false p) /\
             c1 = cache_set ∅ (live_url []) p CACHE_SECONDS 1%Q)
    by (eexists _, _; split; reflexivity).
  destruct Hfirst as (c1 & p & Hfirst & Hc1).
  destruct (proj1 (expired_entry_is_refetched quoted up1 up2 0 1 12 13 [] ∅ c1 p)
              Hfirst) as (e & He & _ & Hlate).
  assert (Hexp : (exp e < 12)%Q).
  { rewrite Hc1, cache_set_lookup in He. injection He as <-. reflexivity. }
  exists c1, p, e. split; [exact Hfirst |]. split; [exact He |].
  split; [exact Hexp |]. rewrite (Hlate Hexp). reflexivity.
Defined.

Lemma fresh_response_of_list_witness :
  let l := replicate 25 (VDict []) in
  let up := fun _ : string =>
    Replied {| status_code := 200; json_body := Some (VList l) |} in
  exists c' p,
    dota_recent quoted up 0 0 ∅ = (c', JSONResponse false p) /\
    count p = 25 /\ raw <$> items p = take 20 l /\
    length (items p) = Nat.min 20 (count p).
Proof.
  intros l up. eexists _, _. split; [reflexivity |].
  match goal with |- count ?p = _ /\ _ =>
    eapply (proj2 (fresh_response_of_list quoted up 0 0 [] ∅ _ p l)); reflexivity
  end.
Defined.

Lemma body_not_a_list_is_cached_witness :
  let rows := VDict [("error", VStr "rate limit exceeded")] in
  let up := fun _ : string =>
    Replied {| status_code := 200; json_body := Some rows |} in
  let p := {| count := 1; items := [] |} in
  dota_live quoted up 0 1 [] ∅
    = (cache_set ∅ OPENDOTA_LIVE p CACHE_SECONDS 1%Q, JSONResponse false p) /\
  dota_recent quoted up 0 1 ∅
    = (cache_set ∅ OPENDOTA_PRO p 30 1%Q, JSONResponse false p).
Proof.
  intros rows up p.
  assert (Hnl : forall l, rows <> VList l) by discriminate.
  destruct (body_not_a_list_is_cached quoted rows 1 up 0 1 [] ∅ Hnl eq_refl)
    as [Hlive Hrecent].
  split; [apply Hlive | apply Hrecent]; reflexivity.
Defined.

Lemma row_not_a_dict_fails_witness :
  let l := [VDict []; VStr "x"] in
  let up := fun _ : string =>
    Replied {| status_code := 200; json_body := Some (VList l) |} in
  (exists e, dota_live quoted up 0 1 [] ∅ = (∅, Unhandled e) /\
             (e = AttributeError \/ e = TypeError)) /\
  dota_recent quoted up 0 1 ∅ = (∅, Unhandled AttributeError).
Proof.
  intros l up.
  destruct (row_not_a_dict_fails quoted l up 0 1 [] ∅) as [Hlive Hrecent].
  split; [apply Hlive | apply Hrecent]; reflexivity.
Defined.
